(** * habit_tracker: a shallow embedding of [habit_tracker.py]

    The module keeps one text record per habit in the directory [habits]
    and accounts for the calendar days that have no entry yet.  Python
    values are embedded as follows.

    - [str] is [string]: the code points below 256, one [ascii] each.
      Every function on text below ([splitlines], [lower], [int], ...)
      is the Python one on that range.
    - [int] is [Z].
    - An exception is a value of [exn]; a call that may raise returns an
      [outcome].  Every [assert] of the source raises [AssertionError]; the
      constructor argument records which statement it was.
    - [datetime.now()] is an argument [now] of the operations that read the
      clock.
    - The directory [habits] is an association list from file names to
      file contents, in the order [os.listdir] enumerates it. *)

From Stdlib Require Import ZArith List String Ascii Bool Lia.
From Stdlib Require Import Decimal DecimalString DecimalZ DecimalPos.
Import ListNotations.

Local Open Scope string_scope.
Local Open Scope Z_scope.

(** ** Exceptions *)

(** The [assert] statements of the source, by what they check. *)
Inductive assertion : Type :=
| Unknown_result_code      (* from_str: assert False *)
| Habits_directory_exists  (* _find_habit_id, _read_habit *)
| Title_is_unique          (* "There are more than 1 habits with title ..." *)
| Title_is_found           (* "There is no habit with title ..." *)
| Habit_file_exists        (* _read_habit *)
| First_separator          (* lines[1] == Habit._SEP *)
| Second_separator         (* second_sep_idx != 1 and second_sep_idx != 2 *)
| Title_is_given           (* find: assert title is not None *)
| Title_is_not_given       (* find: assert title is None *)
| Series_not_in_future     (* len(series) <= num_days + 1 *)
| Today_not_marked         (* "Today is already marked!" *)
| No_other_day_missing     (* "There are other days missing!" *)
| Count_matches.           (* mark_missing_days *)

Inductive exn : Type :=
| AssertionError (a : assertion)
| IndexError
| ValueError
| TypeError
| FileNotFoundError
| SystemExit (code : Z).

Inductive outcome (A : Type) : Type :=
| Return (a : A)
| Raise (e : exn).

Arguments Return {A} a.
Arguments Raise {A} e.

Definition bind {A B : Type} (m : outcome A) (k : A -> outcome B) : outcome B :=
  match m with
  | Return a => k a
  | Raise e => Raise e
  end.

Notation "x <- m ;; k" := (bind m (fun x => k))
  (at level 61, m at next level, right associativity).
Notation "' p <- m ;; k" := (bind m (fun x => match x with p => k end))
  (at level 61, p pattern, m at next level, right associativity).

Definition assert (b : bool) (a : assertion) : outcome unit :=
  if b then Return tt else Raise (AssertionError a).

Fixpoint mapM {A B : Type} (f : A -> outcome B) (l : list A) : outcome (list B) :=
  match l with
  | [] => Return []
  | a :: r => b <- f a ;; bs <- mapM f r ;; Return (b :: bs)
  end.

Definition raises {A : Type} (m : outcome A) : Prop :=
  exists e, m = Raise e.

(** ** Text *)

Definition LF : ascii := "010"%char.
Definition CR : ascii := "013"%char.

Definition code (c : ascii) : Z := Z.of_N (N_of_ascii c).

(** [str.isspace] of one character. *)
Definition is_space (c : ascii) : bool :=
  let n := code c in
  ((9 <=? n) && (n <=? 13)) || ((28 <=? n) && (n <=? 32))
  || (n =? 133) || (n =? 160).

(** The line boundaries of [str.splitlines]. *)
Definition is_linebreak (c : ascii) : bool :=
  let n := code c in
  ((10 <=? n) && (n <=? 13)) || ((28 <=? n) && (n <=? 30)) || (n =? 133).

Definition is_digit (c : ascii) : bool :=
  let n := code c in (48 <=? n) && (n <=? 57).

(** [str.lower] of one character: A-Z and the upper-case letters of
    Latin-1 (all of 0xC0-0xDE but the multiplication sign 0xD7). *)
Definition lower_char (c : ascii) : ascii :=
  let n := code c in
  if ((65 <=? n) && (n <=? 90))
     || ((192 <=? n) && (n <=? 222) && negb (n =? 215))
  then ascii_of_N (Z.to_N (n + 32))
  else c.

Fixpoint lower (s : string) : string :=
  match s with
  | EmptyString => EmptyString
  | String c r => String (lower_char c) (lower r)
  end.

Fixpoint all_chars (p : ascii -> bool) (s : string) : bool :=
  match s with
  | EmptyString => true
  | String c r => p c && all_chars p r
  end.

(** [sep.join(l)] for a one-character [sep]. *)
Fixpoint join (sep : ascii) (l : list string) : string :=
  match l with
  | [] => ""
  | [x] => x
  | x :: r => x ++ String sep (join sep r)
  end.

(** [s.split(sep)] for a one-character [sep]. *)
Fixpoint split (sep : ascii) (s : string) : list string :=
  match s with
  | EmptyString => [""]
  | String c r =>
      if Ascii.eqb c sep then "" :: split sep r
      else match split sep r with
           | [] => [String c ""]
           | x :: l => String c x :: l
           end
  end.

(** [s.splitlines()]: a CR LF pair is one boundary, and a boundary at the
    end of the text does not open a last empty line. *)
Fixpoint splitlines (s : string) : list string :=
  match s with
  | EmptyString => []
  | String c r =>
      if Ascii.eqb c CR then
        match r with
        | String c' r' =>
            if Ascii.eqb c' LF then "" :: splitlines r' else "" :: splitlines r
        | EmptyString => "" :: splitlines r
        end
      else if is_linebreak c then "" :: splitlines r
      else match splitlines r with
           | [] => [String c ""]
           | x :: l => String c x :: l
           end
  end.

(** What reading a file opened in text mode does to its content
    (universal newlines): CR LF and a lone CR become LF. *)
Fixpoint universal_newlines (s : string) : string :=
  match s with
  | EmptyString => EmptyString
  | String c r =>
      if Ascii.eqb c CR then
        match r with
        | String c' r' =>
            if Ascii.eqb c' LF then String LF (universal_newlines r')
            else String LF (universal_newlines r)
        | EmptyString => String LF EmptyString
        end
      else String c (universal_newlines r)
  end.

(** [l.index(x)] *)
Fixpoint index (x : string) (l : list string) : outcome nat :=
  match l with
  | [] => Raise ValueError
  | y :: r => if String.eqb y x then Return 0%nat
              else i <- index x r ;; Return (S i)
  end.

(** [l[i]] for [i >= 0] *)
Definition item (l : list string) (i : nat) : outcome string :=
  match nth_error l i with
  | Some x => Return x
  | None => Raise IndexError
  end.

(** [l[i:j]] and [l[i:]] for [0 <= i] and [0 <= j] *)
Definition slice (l : list string) (i j : nat) : list string :=
  firstn (j - i) (skipn i l).

Definition slice_from (l : list string) (i : nat) : list string :=
  skipn i l.

Definition list_eqb (l1 l2 : list string) : bool :=
  if list_eq_dec string_dec l1 l2 then true else false.

(** ** Integers and text *)

Fixpoint lstrip (s : string) : string :=
  match s with
  | EmptyString => EmptyString
  | String c r => if is_space c then lstrip r else s
  end.

Fixpoint rstrip (s : string) : string :=
  match s with
  | EmptyString => EmptyString
  | String c r =>
      match rstrip r with
      | EmptyString => if is_space c then EmptyString else String c EmptyString
      | r' => String c r'
      end
  end.

(** The digits of an integer literal: a single underscore may stand
    between two digits.  [after_digit] tells whether the character before
    was a digit. *)
Fixpoint literal_digits (after_digit : bool) (s : string) : option string :=
  match s with
  | EmptyString => if after_digit then Some EmptyString else None
  | String c r =>
      if is_digit c then option_map (String c) (literal_digits true r)
      else if Ascii.eqb c "_" then
             if after_digit then literal_digits false r else None
           else None
  end.

(** [int(s)]: white space around, an optional sign, decimal digits. *)
Definition int (s : string) : outcome Z :=
  let t := rstrip (lstrip s) in
  let '(negative, body) :=
    match t with
    | String c r =>
        if Ascii.eqb c "-" then (true, r)
        else if Ascii.eqb c "+" then (false, r)
        else (false, t)
    | EmptyString => (false, t)
    end in
  match literal_digits false body with
  | None => Raise ValueError
  | Some ds =>
      match NilEmpty.uint_of_string ds with
      | None => Raise ValueError
      | Some u => Return (if negative then - Z.of_uint u else Z.of_uint u)
      end
  end.

(** [str(n)] *)
Definition str (n : Z) : string := NilZero.string_of_int (Z.to_int n).

(** ** Result *)

Module Result.

Inductive t : Type := GOOD | BAD | UNKNOWN.

Definition value (r : t) : string :=
  match r with
  | GOOD => "+"
  | BAD => "-"
  | UNKNOWN => "?"
  end.

Definition from_str (s : string) : outcome t :=
  if String.eqb s "+" then Return GOOD
  else if String.eqb s "-" then Return BAD
  else if String.eqb s "?" then Return UNKNOWN
  else Raise (AssertionError Unknown_result_code).

End Result.

(** ** Dates *)

(** [datetime.datetime], without time zone. *)
Record datetime : Type := Datetime {
  year : Z; month : Z; day : Z;
  hour : Z; minute : Z; second : Z; microsecond : Z
}.

Definition _is_leap (y : Z) : bool :=
  (y mod 4 =? 0) && (negb (y mod 100 =? 0) || (y mod 400 =? 0)).

Definition _days_before_year (y : Z) : Z :=
  let y := y - 1 in y * 365 + y / 4 - y / 100 + y / 400.

Definition _DAYS_IN_MONTH : list Z :=
  [-1; 31; 28; 31; 30; 31; 30; 31; 31; 30; 31; 30; 31].

Definition _DAYS_BEFORE_MONTH : list Z :=
  [-1; 0; 31; 59; 90; 120; 151; 181; 212; 243; 273; 304; 334].

Definition _days_in_month (y m : Z) : Z :=
  if (m =? 2) && _is_leap y then 29
  else nth (Z.to_nat m) _DAYS_IN_MONTH 0.

Definition _days_before_month (y m : Z) : Z :=
  nth (Z.to_nat m) _DAYS_BEFORE_MONTH 0
  + (if (2 <? m) && _is_leap y then 1 else 0).

Definition _ymd2ord (y m d : Z) : Z :=
  _days_before_year y + _days_before_month y m + d.

Definition toordinal (d : datetime) : Z :=
  _ymd2ord (year d) (month d) (day d).

Definition in_range (lo x hi : Z) : bool := (lo <=? x) && (x <=? hi).

(** The checks of the constructor on its fields. *)
Definition check_fields (y m d h mi s us : Z) : outcome datetime :=
  if in_range 1 y 9999 && in_range 1 m 12
     && in_range 1 d (_days_in_month y m)
     && in_range 0 h 23 && in_range 0 mi 59 && in_range 0 s 59
     && in_range 0 us 999999
  then Return (Datetime y m d h mi s us)
  else Raise ValueError.

(** The constructor [datetime] applied to a list of integer arguments.
    Year, month and day are required; the eighth positional argument is
    [tzinfo]. *)
Definition datetime_new (args : list Z) : outcome datetime :=
  match args with
  | [y; m; d] => check_fields y m d 0 0 0 0
  | [y; m; d; h] => check_fields y m d h 0 0 0
  | [y; m; d; h; mi] => check_fields y m d h mi 0 0
  | [y; m; d; h; mi; s] => check_fields y m d h mi s 0
  | [y; m; d; h; mi; s; us] => check_fields y m d h mi s us
  | [y; m; d; h; mi; s; us; _] =>
      _ <- check_fields y m d h mi s us ;; Raise TypeError
  | _ => Raise TypeError
  end.

Definition microseconds (d : datetime) : Z :=
  ((toordinal d * 86400 + hour d * 3600 + minute d * 60 + second d) * 1000000)
  + microsecond d.

(** [(a - b).days]: a [timedelta] is normalised, its days are the floor. *)
Definition days_between (a b : datetime) : Z :=
  (microseconds a - microseconds b) / 86400000000.

Definition _date_to_str (date : datetime) : string :=
  str (year date) ++ "-" ++ str (month date) ++ "-" ++ str (day date).

Definition _str_to_date (date_str : string) : outcome datetime :=
  args <- mapM int (split "-" date_str) ;;
  datetime_new args.

Definition _get_today (now : datetime) : datetime :=
  Datetime (year now) (month now) (day now) 0 0 0 0.

Definition _get_today_str (now : datetime) : string :=
  _date_to_str (_get_today now).

(** ** The directory [habits] *)

(** Files of the directory: name and text, in [os.listdir] order.  On the
    platform modelled the line separator is LF, so that writing in text
    mode stores the text as it is. *)
Definition directory : Type := list (string * string).

(** [None]: the directory does not exist. *)
Definition filesystem : Type := option directory.

Fixpoint lookup (name : string) (d : directory) : option string :=
  match d with
  | [] => None
  | (n, c) :: r => if String.eqb n name then Some c else lookup name r
  end.

(** [open(name, "w")] and writing [content]: a file of that name is
    replaced, or a new one added. *)
Fixpoint store (name content : string) (d : directory) : directory :=
  match d with
  | [] => [(name, content)]
  | (n, c) :: r =>
      if String.eqb n name then (n, content) :: r
      else (n, c) :: store name content r
  end.

Fixpoint unlink (name : string) (d : directory) : directory :=
  match d with
  | [] => []
  | (n, c) :: r => if String.eqb n name then r else (n, c) :: unlink name r
  end.

Definition exists_habits (fs : filesystem) : bool :=
  match fs with Some _ => true | None => false end.

Definition exists_file (fs : filesystem) (name : string) : bool :=
  match fs with
  | Some d => match lookup name d with Some _ => true | None => false end
  | None => false
  end.

Definition listdir (fs : filesystem) : outcome (list string) :=
  match fs with
  | Some d => Return (map fst d)
  | None => Raise FileNotFoundError
  end.

(** [if not os.path.exists("habits"): os.mkdir("habits")] *)
Definition ensure_habits (fs : filesystem) : directory :=
  match fs with
  | Some d => d
  | None => []
  end.

Definition read_text (fs : filesystem) (name : string) : outcome string :=
  match fs with
  | Some d => match lookup name d with
              | Some c => Return (universal_newlines c)
              | None => Raise FileNotFoundError
              end
  | None => Raise FileNotFoundError
  end.

Definition os_remove (fs : filesystem) (name : string) : outcome filesystem :=
  match fs with
  | Some d => match lookup name d with
              | Some _ => Return (Some (unlink name d))
              | None => Raise FileNotFoundError
              end
  | None => Raise FileNotFoundError
  end.

(** [max(l)] *)
Definition maximum (l : list Z) : outcome Z :=
  match l with
  | [] => Raise ValueError
  | x :: r => Return (fold_left Z.max r x)
  end.

Definition len {A : Type} (l : list A) : Z := Z.of_nat (List.length l).

(** ** Habit *)

Module Habit.

Definition _SEP : string := "-#-#-#-#-#-#-#-#-#-#-#-#-#-#-#-#-#-#-#-#-".

(** The object: [__init__] stores its five arguments.  The list
    [_series] is held by value. *)
Record t : Type := Make {
  _habit_id : string;
  title : string;
  description : string;
  _start_date_str : string;
  _series : list Result.t
}.

Definition _find_latest_habit_id (fs : filesystem) : outcome string :=
  habit_ids <- listdir fs ;;
  if (len habit_ids =? 0) then Return "-1"
  else ns <- mapM int habit_ids ;;
       m <- maximum ns ;;
       Return (str m).

(** The body of [_read_habit] once the file is read and split in
    [lines]. *)
Definition _read_lines (lines : list string)
  : outcome (string * string * string * list Result.t) :=
  line1 <- item lines 1 ;;
  _ <- assert (String.eqb line1 _SEP) First_separator ;;
  i <- index _SEP (List.rev lines) ;;
  let second_sep_idx := (List.length lines - i - 1)%nat in
  _ <- assert (negb (Nat.eqb second_sep_idx 1)
               && negb (Nat.eqb second_sep_idx 2)) Second_separator ;;
  title <- item lines 0 ;;
  let description := join LF (slice lines 2 second_sep_idx) in
  start_date_str <- item lines (second_sep_idx + 1) ;;
  let series_lines := slice_from lines (second_sep_idx + 2) in
  series <- (if list_eqb series_lines [""] then Return []
             else mapM Result.from_str series_lines) ;;
  Return (title, description, start_date_str, series).

Definition _read_habit (fs : filesystem) (habit_id : string)
  : outcome (string * string * string * list Result.t) :=
  _ <- assert (exists_habits fs) Habits_directory_exists ;;
  _ <- assert (exists_file fs habit_id) Habit_file_exists ;;
  text <- read_text fs habit_id ;;
  _read_lines (splitlines text).

(** The text [_write_habit] writes. *)
Definition record_text (title description start_date_str : string)
    (series : list Result.t) : string :=
  (title ++ String LF "")
  ++ (_SEP ++ String LF "")
  ++ (description ++ String LF "")
  ++ (_SEP ++ String LF "")
  ++ (start_date_str ++ String LF "")
  ++ (join LF (map Result.value series) ++ String LF "").

Definition _write_habit (fs : filesystem) (habit_id title description
    start_date_str : string) (series : list Result.t) : filesystem :=
  Some (store habit_id
          (record_text title description start_date_str series)
          (ensure_habits fs)).

(** The loop of [_find_habit_id] over the rest [habit_ids] of the
    listing. *)
Fixpoint _find_habit_id_loop (fs : filesystem) (title : string)
    (habit_ids : list string) (desired_habit_id : option string)
  : outcome (option string) :=
  match habit_ids with
  | [] => Return desired_habit_id
  | habit_id :: rest =>
      '(found_title, _, _, _) <- _read_habit fs habit_id ;;
      if String.eqb (lower found_title) (lower title) then
        _ <- assert (match desired_habit_id with
                     | None => true
                     | Some _ => false
                     end) Title_is_unique ;;
        _find_habit_id_loop fs title rest (Some habit_id)
      else _find_habit_id_loop fs title rest desired_habit_id
  end.

Definition _find_habit_id (fs : filesystem) (title : string)
  : outcome string :=
  _ <- assert (exists_habits fs) Habits_directory_exists ;;
  habit_ids <- listdir fs ;;
  desired_habit_id <- _find_habit_id_loop fs title habit_ids None ;;
  match desired_habit_id with
  | Some habit_id => Return habit_id
  | None => Raise (AssertionError Title_is_found)
  end.

(** [create] leaves the directory [habits] in place and returns the
    object. *)
Definition create (now : datetime) (fs : filesystem)
    (title description : string) (start_date_str : option string)
    (series : option (list Result.t)) : outcome (filesystem * t) :=
  let fs := Some (ensure_habits fs) in
  latest <- _find_latest_habit_id fs ;;
  n <- int latest ;;
  let habit_id := str (n + 1) in
  let start_date_str :=
    match start_date_str with
    | None => _get_today_str now
    | Some s => s
    end in
  let series :=
    match series with
    | None => []
    | Some l => l
    end in
  Return (fs, Make habit_id title description start_date_str series).

Definition find (fs : filesystem) (habit_id title : option string)
  : outcome t :=
  habit_id <- match habit_id with
              | None =>
                  match title with
                  | None => Raise (AssertionError Title_is_given)
                  | Some title => _find_habit_id fs title
                  end
              | Some habit_id =>
                  match title with
                  | None => Return habit_id
                  | Some _ => Raise (AssertionError Title_is_not_given)
                  end
              end ;;
  '(title, description, start_date_str, series) <- _read_habit fs habit_id ;;
  Return (Make habit_id title description start_date_str series).

Definition _get_num_missing_days (now : datetime) (start_date_str : string)
    (series : list Result.t) (including_today : bool) : outcome Z :=
  start_date <- _str_to_date start_date_str ;;
  let today := _get_today now in
  let num_days := days_between today start_date in
  _ <- assert (len series <=? num_days + 1) Series_not_in_future ;;
  if including_today then Return (num_days - len series + 1)
  else if len series =? num_days + 1 then Return 0
       else Return (num_days - len series).

Definition get_num_missing_days (now : datetime) (self : t)
    (including_today : bool) : outcome Z :=
  _get_num_missing_days now (_start_date_str self) (_series self)
    including_today.

Definition with_series (self : t) (series : list Result.t) : t :=
  Make (_habit_id self) (title self) (description self)
       (_start_date_str self) series.

(** The mutators return the object after the call. *)
Definition mark_today (now : datetime) (self : t) (result : Result.t)
  : outcome t :=
  num_missing_days <- get_num_missing_days now self true ;;
  _ <- assert (0 <? num_missing_days) Today_not_marked ;;
  _ <- assert (num_missing_days =? 1) No_other_day_missing ;;
  Return (with_series self (_series self ++ [result])).

Definition mark_missing_days (now : datetime) (self : t)
    (results : list Result.t) (including_today : bool) : outcome t :=
  n <- get_num_missing_days now self including_today ;;
  _ <- assert (n =? len results) Count_matches ;;
  Return (with_series self (_series self ++ results)).

Definition is_today_marked (now : datetime) (self : t) : outcome bool :=
  n <- get_num_missing_days now self true ;;
  Return (n =? 0).

Definition save (fs : filesystem) (self : t) : filesystem :=
  _write_habit fs (_habit_id self) (title self) (description self)
    (_start_date_str self) (_series self).

(** [answer] is the line [input] returns when [prompt] is set; what
    [print] writes is left out. *)
Definition remove (fs : filesystem) (self : t) (prompt : bool)
    (answer : string) : outcome filesystem :=
  if prompt then
    let choice := lower answer in
    if String.eqb choice "y" then os_remove fs (_habit_id self)
    else Raise (SystemExit 1)
  else os_remove fs (_habit_id self).

Definition get_habit_id (self : t) : string := _habit_id self.
Definition get_start_date_str (self : t) : string := _start_date_str self.
Definition get_series (self : t) : list Result.t := _series self.

End Habit.

(** * Vocabulary of the properties *)

(** [(today - start_date).days] of a habit, when its start date reads. *)
Definition elapsed_days (now : datetime) (h : Habit.t) : outcome Z :=
  start_date <- _str_to_date (Habit._start_date_str h) ;;
  Return (days_between (_get_today now) start_date).

(** A clock and habits to evaluate on: the morning of 4 January 2024. *)
Definition morning_2024_1_4 : datetime := Datetime 2024 1 4 10 30 0 0.

Definition habit_since (start_date_str : string) (series : list Result.t)
  : Habit.t :=
  Habit.Make "0" "Read" "Ten pages" start_date_str series.

(** The last position of [x] in [l]. *)
Fixpoint last_index (x : string) (l : list string) : option nat :=
  match l with
  | [] => None
  | y :: r =>
      match last_index x r with
      | Some i => Some (S i)
      | None => if String.eqb y x then Some 0%nat else None
      end
  end.

Definition is_result_code (s : string) : bool :=
  String.eqb s "+" || String.eqb s "-" || String.eqb s "?".

(** The lines [_read_lines] does not accept: fewer than two, a second line
    that is not the separator, the last separator at position 1 or 2 or on
    the last line (no line for the start date), or lines after the start
    date that are neither the single empty line of an empty series nor all
    result codes. *)
Definition corrupt (lines : list string) : bool :=
  (List.length lines <? 2)%nat
  || negb (String.eqb (nth 1 lines "") Habit._SEP)
  || match last_index Habit._SEP lines with
     | None => true
     | Some i =>
         (i =? 1)%nat || (i =? 2)%nat
         || (List.length lines <=? i + 1)%nat
         || (negb (list_eqb (slice_from lines (i + 2)) [""])
             && negb (forallb is_result_code (slice_from lines (i + 2))))
     end.

(** Text without line boundary, and text whose only line boundary is LF. *)
Definition single_line (s : string) : bool :=
  all_chars (fun c => negb (is_linebreak c)) s.

Definition breaks_at_LF_only (s : string) : bool :=
  all_chars (fun c => negb (is_linebreak c) || Ascii.eqb c LF) s.

(** The lines of a series as [_write_habit] writes it. *)
Definition series_lines (series : list Result.t) : list string :=
  match series with
  | [] => [""]
  | _ => map Result.value series
  end.

Definition is_digit_or_minus (c : ascii) : bool :=
  is_digit c || Ascii.eqb c "-".

(** The number [create] gives a new habit when the numbers [ids] are in
    use: one more than the largest, 0 when there is none. *)
Definition next_id (ids : list Z) : Z :=
  match ids with
  | [] => 0
  | x :: r => fold_left Z.max r x + 1
  end.

(** [create] followed by [save], and a directory made that way. *)
Definition create_and_save (now : datetime) (fs : filesystem) (title : string)
  : outcome (filesystem * Habit.t) :=
  '(fs, h) <- Habit.create now fs title "" None None ;;
  Return (Habit.save fs h, h).

Definition three_habits : outcome filesystem :=
  '(fs, _) <- create_and_save morning_2024_1_4 None "Read" ;;
  '(fs, _) <- create_and_save morning_2024_1_4 fs "Run" ;;
  '(fs, _) <- create_and_save morning_2024_1_4 fs "Rest" ;;
  Return fs.

(** What [_read_habit] returns for a file with the text [content]. *)
Definition read_record (content : string)
  : outcome (string * string * string * list Result.t) :=
  Habit._read_lines (splitlines (universal_newlines content)).

(** The file holds a habit whose title is [title], letter case aside. *)
Definition title_matches (title : string) (file : string * string) : bool :=
  match read_record (snd file) with
  | Return (found_title, _, _, _) => String.eqb (lower found_title) (lower title)
  | Raise _ => false
  end.

Definition readable (file : string * string) : Prop :=
  ~ raises (read_record (snd file)).

(** What the loop of [_find_habit_id] comes to, from [desired_habit_id]
    and the files left that match. *)
Definition loop_outcome (desired_habit_id : option string)
    (found : list (string * string)) : outcome (option string) :=
  match found with
  | [] => Return desired_habit_id
  | (habit_id, _) :: more =>
      match desired_habit_id, more with
      | None, [] => Return (Some habit_id)
      | _, _ => Raise (AssertionError Title_is_unique)
      end
  end.

(** Two habits whose titles differ by letter case only. *)
Definition read_and_Read : filesystem :=
  Habit.save
    (Habit.save None (Habit.Make "0" "Read" "Ten pages" "2024-1-1" []))
    (Habit.Make "1" "read" "A chapter" "2024-1-2" [Result.GOOD]).

(** A [datetime] the constructor accepts, as [datetime.now()] returns. *)
Definition valid (d : datetime) : Prop :=
  check_fields (year d) (month d) (day d) (hour d) (minute d) (second d)
    (microsecond d) = Return d.

(** * Properties *)

Import Habit.

(** ** Evaluations *)

Example str_to_date_2024_1_4 :
  _str_to_date "2024-1-4" = Return (Datetime 2024 1 4 0 0 0 0).
Proof. reflexivity. Qed.

Example date_to_str_2024_1_4 :
  _date_to_str (Datetime 2024 1 4 0 0 0 0) = "2024-1-4".
Proof. reflexivity. Qed.

Example days_between_example :
  days_between (Datetime 2024 1 4 0 0 0 0) (Datetime 2024 1 1 0 0 0 0) = 3.
Proof. reflexivity. Qed.

Example int_examples :
  int " 1_000 " = Return 1000 /\ int "-1" = Return (-1) /\ int "+07" = Return 7
  /\ int "1__0" = Raise ValueError /\ int "" = Raise ValueError
  /\ int "- 1" = Raise ValueError.
Proof. repeat split; reflexivity. Qed.

Example splitlines_examples :
  splitlines "" = [] /\ splitlines (String LF "") = [""]
  /\ splitlines ("a" ++ String LF (String LF "b")) = ["a"; ""; "b"]
  /\ splitlines ("a" ++ String CR (String LF "b")) = ["a"; "b"]
  /\ splitlines ("a" ++ String LF "") = ["a"].
Proof. repeat split; reflexivity. Qed.

(** The example of a habit started on 1 January 2024 and looked at on
    4 January: four days are missing; three results fill the days before
    today, and today is marked last. *)
Example three_days_late :
  get_num_missing_days morning_2024_1_4 (habit_since "2024-1-1" []) true
  = Return 4
  /\ (h <- mark_missing_days morning_2024_1_4 (habit_since "2024-1-1" [])
            [Result.GOOD; Result.GOOD; Result.BAD] false ;;
      n <- get_num_missing_days morning_2024_1_4 h true ;;
      h' <- mark_today morning_2024_1_4 h Result.UNKNOWN ;;
      Return (n, get_series h'))
     = Return (1, [Result.GOOD; Result.GOOD; Result.BAD; Result.UNKNOWN]).
Proof. split; reflexivity. Qed.

Example lower_examples :
  lower "Read" = "read" /\ lower "READ 10" = "read 10".
Proof. split; reflexivity. Qed.

(** ** Missing days *)

Section MissingDays.

Variable now : datetime.
Variable h : Habit.t.
Variable num_days : Z.
Hypothesis Helapsed : elapsed_days now h = Return num_days.

(** Once the start date reads, the count is the assertion and the
    arithmetic. *)
Lemma get_num_missing_days_unfold (including_today : bool) :
  get_num_missing_days now h including_today =
    (_ <- assert (len (_series h) <=? num_days + 1) Series_not_in_future ;;
     if including_today then Return (num_days - len (_series h) + 1)
     else if len (_series h) =? num_days + 1 then Return 0
          else Return (num_days - len (_series h))).
Proof using Helapsed.
  unfold get_num_missing_days, _get_num_missing_days.
  unfold elapsed_days in Helapsed.
  destruct (_str_to_date (_start_date_str h)) as [start|e]; simpl in *.
  - injection Helapsed as <-. reflexivity.
  - discriminate.
Qed.

Lemma get_num_missing_days_ok (including_today : bool) :
  len (_series h) <= num_days + 1 ->
  get_num_missing_days now h including_today =
    Return (if including_today then num_days - len (_series h) + 1
            else if len (_series h) =? num_days + 1 then 0
                 else num_days - len (_series h)).
Proof using Helapsed.
  intros Hlen. rewrite get_num_missing_days_unfold.
  apply Z.leb_le in Hlen. rewrite Hlen. simpl.
  destruct including_today; [reflexivity|].
  destruct (len (_series h) =? num_days + 1); reflexivity.
Qed.

Lemma get_num_missing_days_future (including_today : bool) :
  num_days + 1 < len (_series h) ->
  get_num_missing_days now h including_today =
    Raise (AssertionError Series_not_in_future).
Proof using Helapsed.
  intros Hlen. rewrite get_num_missing_days_unfold.
  apply Z.leb_gt in Hlen. rewrite Hlen. reflexivity.
Qed.

End MissingDays.

Lemma elapsed_days_with_series now h series :
  elapsed_days now (with_series h series) = elapsed_days now h.
Proof. reflexivity. Qed.

Lemma len_app {A : Type} (l1 l2 : list A) : len (l1 ++ l2) = len l1 + len l2.
Proof. unfold len. rewrite length_app. lia. Qed.

Lemma len_nonneg {A : Type} (l : list A) : 0 <= len l.
Proof. unfold len. lia. Qed.

Lemma len_zero {A : Type} (l : list A) : len l = 0 -> l = [].
Proof. destruct l; [reflexivity | unfold len; simpl; lia]. Qed.

(** C1. For a habit whose start date is not after today and whose series
    is not longer than [num_days + 1], the count of missing days is
    [num_days - len(series) + 1] including today; not including today it
    is 0 when [len(series) = num_days + 1] and [num_days - len(series)]
    otherwise. *)
Theorem get_num_missing_days_value :
  forall (now : datetime) (h : Habit.t) (num_days : Z) (including_today : bool),
    elapsed_days now h = Return num_days ->
    0 <= num_days ->
    len (_series h) <= num_days + 1 ->
    get_num_missing_days now h including_today =
      Return (if including_today then num_days - len (_series h) + 1
              else if len (_series h) =? num_days + 1 then 0
                   else num_days - len (_series h)).
Proof.
  intros now h num_days including_today Helapsed _ Hlen.
  exact (get_num_missing_days_ok now h num_days Helapsed including_today Hlen).
Qed.

Lemma get_num_missing_days_value_witness :
  get_num_missing_days morning_2024_1_4
    (habit_since "2024-1-1" [Result.GOOD]) false = Return 2.
Proof.
  apply (get_num_missing_days_value morning_2024_1_4
           (habit_since "2024-1-1" [Result.GOOD]) 3 false).
  - reflexivity.
  - lia.
  - unfold len; simpl; lia.
Defined.

(** C10. With the start date not after today and the series within
    bounds, the two counts are both 0 when today is recorded and differ by
    one otherwise; the count including today is never negative and
    [is_today_marked] returns whether it is 0. *)
Theorem missing_days_flags_linked :
  forall (now : datetime) (h : Habit.t) (num_days : Z),
    elapsed_days now h = Return num_days ->
    0 <= num_days ->
    len (_series h) <= num_days + 1 ->
    exists with_today without_today : Z,
      get_num_missing_days now h true = Return with_today
      /\ get_num_missing_days now h false = Return without_today
      /\ (len (_series h) = num_days + 1 ->
          with_today = 0 /\ without_today = 0)
      /\ (len (_series h) <> num_days + 1 ->
          with_today = without_today + 1)
      /\ 0 <= with_today
      /\ is_today_marked now h = Return (with_today =? 0).
Proof.
  intros now h num_days Helapsed _ Hlen.
  pose proof (get_num_missing_days_ok now h num_days Helapsed true Hlen) as Ht.
  pose proof (get_num_missing_days_ok now h num_days Helapsed false Hlen) as Hf.
  simpl in Ht.
  eexists; eexists. split; [exact Ht|]. split; [exact Hf|].
  destruct (Z.eqb_spec (len (_series h)) (num_days + 1)) as [E|E].
  - repeat split; try lia.
    unfold is_today_marked. rewrite Ht. reflexivity.
  - repeat split; try lia.
    unfold is_today_marked. rewrite Ht. reflexivity.
Qed.

Lemma missing_days_flags_linked_witness :
  exists with_today without_today : Z,
    get_num_missing_days morning_2024_1_4
      (habit_since "2024-1-1" [Result.GOOD]) true = Return with_today
    /\ get_num_missing_days morning_2024_1_4
         (habit_since "2024-1-1" [Result.GOOD]) false = Return without_today
    /\ (len [Result.GOOD] = 3 + 1 -> with_today = 0 /\ without_today = 0)
    /\ (len [Result.GOOD] <> 3 + 1 -> with_today = without_today + 1)
    /\ 0 <= with_today
    /\ is_today_marked morning_2024_1_4
         (habit_since "2024-1-1" [Result.GOOD]) = Return (with_today =? 0).
Proof.
  apply (missing_days_flags_linked morning_2024_1_4
           (habit_since "2024-1-1" [Result.GOOD]) 3).
  - reflexivity.
  - lia.
  - unfold len; simpl; lia.
Defined.

(** C2, as the claim has it, fails: on the eve of the start date a habit
    with an empty series counts 0 missing days. *)
Lemma eve_of_start_date_returns :
  elapsed_days morning_2024_1_4 (habit_since "2024-1-5" []) = Return (-1)
  /\ get_num_missing_days morning_2024_1_4 (habit_since "2024-1-5" []) true
     = Return 0
  /\ is_today_marked morning_2024_1_4 (habit_since "2024-1-5" [])
     = Return true
  /\ mark_missing_days morning_2024_1_4 (habit_since "2024-1-5" []) [] false
     = Return (habit_since "2024-1-5" []).
Proof. repeat split; reflexivity. Qed.

(** C2, amended. When today precedes the start date ([num_days < 0]) the
    count raises on the assertion about the length of the series exactly
    when [len(series) > num_days + 1]: always from two days before the
    start date on, and on the eve of it when the series is not empty.  On
    the eve with an empty series both counts are 0, [is_today_marked] is
    true, [mark_today] raises as for a day already marked and
    [mark_missing_days] accepts the empty list. *)
Theorem missing_days_before_start_date :
  forall (now : datetime) (h : Habit.t) (num_days : Z),
    elapsed_days now h = Return num_days ->
    num_days < 0 ->
    (num_days + 1 < len (_series h) ->
     forall including_today,
       get_num_missing_days now h including_today
       = Raise (AssertionError Series_not_in_future))
    /\ (num_days <= -2 -> num_days + 1 < len (_series h))
    /\ (num_days = -1 -> _series h <> [] -> num_days + 1 < len (_series h))
    /\ (len (_series h) <= num_days + 1 ->
        num_days = -1 /\ _series h = []
        /\ (forall including_today,
              get_num_missing_days now h including_today = Return 0)
        /\ is_today_marked now h = Return true
        /\ (forall result,
              mark_today now h result = Raise (AssertionError Today_not_marked))
        /\ (forall including_today,
              mark_missing_days now h [] including_today
              = Return (with_series h (_series h ++ [])))).
Proof.
  intros now h num_days Helapsed Hneg.
  pose proof (len_nonneg (_series h)) as Hpos.
  split; [|split; [|split]].
  - intros Hlen b. now apply get_num_missing_days_future with (num_days := num_days).
  - lia.
  - intros -> Hne. destruct (_series h); [congruence | unfold len; simpl; lia].
  - intros Hlen.
    assert (num_days = -1) as -> by lia.
    assert (len (_series h) = 0) as Hz by lia.
    assert (forall b, get_num_missing_days now h b = Return 0) as Hcount.
    { intros b. rewrite (get_num_missing_days_ok now h (-1) Helapsed b Hlen).
      rewrite Hz. destruct b; reflexivity. }
    split; [reflexivity|]. split; [now apply len_zero|].
    split; [exact Hcount|].
    split; [unfold is_today_marked; rewrite Hcount; reflexivity|].
    split.
    + intros result. unfold mark_today. rewrite Hcount. reflexivity.
    + intros b. unfold mark_missing_days. rewrite Hcount. reflexivity.
Qed.

Lemma missing_days_before_start_date_witness :
  get_num_missing_days morning_2024_1_4
    (habit_since "2024-1-6" []) true
  = Raise (AssertionError Series_not_in_future).
Proof.
  apply (missing_days_before_start_date morning_2024_1_4
           (habit_since "2024-1-6" []) (-2)).
  - reflexivity.
  - lia.
  - unfold len; simpl; lia.
Defined.

(** ** Marking *)

(** C4. With the start date not after today and the series within
    bounds, [mark_today] raises "Today is already marked!" when no day is
    missing, raises "There are other days missing!" when more than one
    is, and with exactly one day missing appends [result] and changes
    nothing else; then [is_today_marked] is true and a second [mark_today]
    raises "Today is already marked!". *)
Theorem mark_today_cases :
  forall (now : datetime) (h : Habit.t) (num_days : Z) (result : Result.t),
    elapsed_days now h = Return num_days ->
    0 <= num_days ->
    len (_series h) <= num_days + 1 ->
    let missing := num_days - len (_series h) + 1 in
    get_num_missing_days now h true = Return missing
    /\ (missing = 0 ->
        mark_today now h result = Raise (AssertionError Today_not_marked))
    /\ (1 < missing ->
        mark_today now h result = Raise (AssertionError No_other_day_missing))
    /\ (missing = 1 ->
        let h' := Make (_habit_id h) (title h) (description h)
                    (_start_date_str h) (_series h ++ [result]) in
        mark_today now h result = Return h'
        /\ is_today_marked now h' = Return true
        /\ forall again,
             mark_today now h' again = Raise (AssertionError Today_not_marked)).
Proof.
  intros now h num_days result Helapsed _ Hlen missing.
  pose proof (get_num_missing_days_ok now h num_days Helapsed true Hlen) as Hcount.
  simpl in Hcount. fold missing in Hcount.
  split; [exact Hcount|]. split; [|split].
  - intros Hm. unfold mark_today. rewrite Hcount, Hm. reflexivity.
  - intros Hm. unfold mark_today. rewrite Hcount. simpl.
    replace (0 <? missing) with true by (symmetry; apply Z.ltb_lt; lia).
    replace (missing =? 1) with false by (symmetry; apply Z.eqb_neq; lia).
    reflexivity.
  - intros Hm h'.
    assert (elapsed_days now h' = Return num_days) as Helapsed' by exact Helapsed.
    assert (len (_series h') = num_days + 1) as Hlen'.
    { unfold h'; simpl. rewrite len_app. unfold missing in Hm.
      change (len [result]) with 1. lia. }
    assert (get_num_missing_days now h' true = Return 0) as Hcount'.
    { rewrite (get_num_missing_days_ok now h' num_days Helapsed' true) by lia.
      cbv iota. rewrite Hlen'. f_equal. lia. }
    split; [|split].
    + unfold mark_today. rewrite Hcount, Hm. reflexivity.
    + unfold is_today_marked. rewrite Hcount'. reflexivity.
    + intros again. unfold mark_today. rewrite Hcount'. reflexivity.
Qed.

Lemma mark_today_cases_witness :
  mark_today morning_2024_1_4
    (habit_since "2024-1-1" [Result.GOOD; Result.GOOD; Result.BAD])
    Result.UNKNOWN
  = Return (habit_since "2024-1-1"
              [Result.GOOD; Result.GOOD; Result.BAD; Result.UNKNOWN]).
Proof.
  apply (mark_today_cases morning_2024_1_4
           (habit_since "2024-1-1" [Result.GOOD; Result.GOOD; Result.BAD])
           3 Result.UNKNOWN).
  - reflexivity.
  - lia.
  - unfold len; simpl; lia.
  - reflexivity.
Defined.

(** C5. With the start date not after today and the series within
    bounds, [mark_missing_days] raises when the number of results differs
    from the count for the flag, and otherwise appends the results in
    order after the series: result [i] is the entry of the [i]-th missing
    day, nothing else changes, and with [including_today] set
    [is_today_marked] is true afterwards. *)
Theorem mark_missing_days_cases :
  forall (now : datetime) (h : Habit.t) (num_days : Z)
         (results : list Result.t) (including_today : bool),
    elapsed_days now h = Return num_days ->
    0 <= num_days ->
    len (_series h) <= num_days + 1 ->
    let missing := if including_today then num_days - len (_series h) + 1
                   else if len (_series h) =? num_days + 1 then 0
                        else num_days - len (_series h) in
    get_num_missing_days now h including_today = Return missing
    /\ (len results <> missing ->
        mark_missing_days now h results including_today
        = Raise (AssertionError Count_matches))
    /\ (len results = missing ->
        let h' := Make (_habit_id h) (title h) (description h)
                    (_start_date_str h) (_series h ++ results) in
        mark_missing_days now h results including_today = Return h'
        /\ (forall i : nat,
              nth_error (_series h') (List.length (_series h) + i)
              = nth_error results i)
        /\ (including_today = true -> is_today_marked now h' = Return true)).
Proof.
  intros now h num_days results including_today Helapsed _ Hlen missing.
  pose proof (get_num_missing_days_ok now h num_days Helapsed including_today
                Hlen) as Hcount.
  fold missing in Hcount.
  split; [exact Hcount|]. split.
  - intros Hne. unfold mark_missing_days. rewrite Hcount. simpl.
    replace (missing =? len results) with false
      by (symmetry; apply Z.eqb_neq; congruence).
    reflexivity.
  - intros Heq h'. split; [|split].
    + unfold mark_missing_days. rewrite Hcount. simpl.
      rewrite Heq, Z.eqb_refl. reflexivity.
    + intros i. unfold h'; simpl.
      rewrite nth_error_app2 by lia. f_equal. lia.
    + intros ->.
      assert (elapsed_days now h' = Return num_days) as Helapsed'
          by exact Helapsed.
      assert (len (_series h') = num_days + 1) as Hlen'.
      { unfold h'; simpl. rewrite len_app. unfold missing in Heq. lia. }
      unfold is_today_marked.
      rewrite (get_num_missing_days_ok now h' num_days Helapsed' true) by lia.
      cbv iota. rewrite Hlen'. simpl. f_equal. apply Z.eqb_eq. lia.
Qed.

Lemma mark_missing_days_cases_witness :
  mark_missing_days morning_2024_1_4 (habit_since "2024-1-1" [])
    [Result.GOOD; Result.GOOD; Result.BAD] false
  = Return (habit_since "2024-1-1" [Result.GOOD; Result.GOOD; Result.BAD]).
Proof.
  apply (mark_missing_days_cases morning_2024_1_4 (habit_since "2024-1-1" [])
           3 [Result.GOOD; Result.GOOD; Result.BAD] false).
  - reflexivity.
  - lia.
  - unfold len; simpl; lia.
  - reflexivity.
Defined.

Lemma mark_today_inv now h result h' :
  mark_today now h result = Return h' ->
  get_num_missing_days now h true = Return 1
  /\ h' = with_series h (_series h ++ [result]).
Proof.
  unfold mark_today.
  destruct (get_num_missing_days now h true) as [n|e]; simpl; [|discriminate].
  destruct (0 <? n); simpl; [|discriminate].
  destruct (Z.eqb_spec n 1) as [->|]; simpl; [|discriminate].
  intros [= <-]. split; reflexivity.
Qed.

Lemma mark_missing_days_inv now h results b h' :
  mark_missing_days now h results b = Return h' ->
  get_num_missing_days now h b = Return (len results)
  /\ h' = with_series h (_series h ++ results).
Proof.
  unfold mark_missing_days.
  destruct (get_num_missing_days now h b) as [n|e]; simpl; [|discriminate].
  destruct (Z.eqb_spec n (len results)) as [->|]; simpl; [|discriminate].
  intros [= <-]. split; reflexivity.
Qed.

(** C3. The bound [len(series) <= num_days + 1] is kept by a [mark_today]
    and by a [mark_missing_days] that return, for the same today; and on a
    habit that breaks the bound every operation that counts missing days
    raises on the assertion about it. *)
Theorem series_bound_preserved :
  forall (now : datetime) (h : Habit.t) (num_days : Z),
    elapsed_days now h = Return num_days ->
    (0 <= num_days ->
     len (_series h) <= num_days + 1 ->
     (forall result h',
        mark_today now h result = Return h' ->
        elapsed_days now h' = Return num_days
        /\ len (_series h') <= num_days + 1)
     /\ (forall results including_today h',
           mark_missing_days now h results including_today = Return h' ->
           elapsed_days now h' = Return num_days
           /\ len (_series h') <= num_days + 1))
    /\ (num_days + 1 < len (_series h) ->
        (forall including_today,
           get_num_missing_days now h including_today
           = Raise (AssertionError Series_not_in_future))
        /\ is_today_marked now h = Raise (AssertionError Series_not_in_future)
        /\ (forall result,
              mark_today now h result
              = Raise (AssertionError Series_not_in_future))
        /\ (forall results including_today,
              mark_missing_days now h results including_today
              = Raise (AssertionError Series_not_in_future))).
Proof.
  intros now h num_days Helapsed. split.
  - intros _ Hlen. split.
    + intros result h' Hmark.
      apply mark_today_inv in Hmark as [Hcount ->].
      rewrite (get_num_missing_days_ok now h num_days Helapsed true Hlen)
        in Hcount.
      injection Hcount as Hcount.
      split; [exact Helapsed|]. simpl. rewrite len_app.
      change (len [result]) with 1. lia.
    + intros results b h' Hmark.
      apply mark_missing_days_inv in Hmark as [Hcount ->].
      rewrite (get_num_missing_days_ok now h num_days Helapsed b Hlen)
        in Hcount.
      injection Hcount as Hcount.
      split; [exact Helapsed|]. simpl. rewrite len_app.
      destruct b; [lia|].
      destruct (Z.eqb_spec (len (_series h)) (num_days + 1)); lia.
  - intros Hlen.
    pose proof (get_num_missing_days_future now h num_days Helapsed) as Hfail.
    split; [intros b; now apply Hfail|].
    split; [unfold is_today_marked; now rewrite Hfail|].
    split.
    + intros result. unfold mark_today. now rewrite Hfail.
    + intros results b. unfold mark_missing_days. now rewrite Hfail.
Qed.

Lemma series_bound_preserved_witness :
  elapsed_days morning_2024_1_4
    (habit_since "2024-1-1"
       [Result.GOOD; Result.GOOD; Result.BAD; Result.UNKNOWN]) = Return 3
  /\ len [Result.GOOD; Result.GOOD; Result.BAD; Result.UNKNOWN] <= 3 + 1.
Proof.
  refine (proj1 (proj1 (series_bound_preserved morning_2024_1_4
            (habit_since "2024-1-1" [Result.GOOD; Result.GOOD; Result.BAD])
            3 eq_refl) _ _) Result.UNKNOWN _ eq_refl).
  - lia.
  - unfold len; simpl; lia.
Defined.

(** ** Lists of lines *)

Lemma index_app x l1 l2 :
  index x (l1 ++ l2) =
    match index x l1 with
    | Return i => Return i
    | Raise _ => i <- index x l2 ;; Return (List.length l1 + i)%nat
    end.
Proof.
  induction l1 as [|y r IH]; simpl.
  - destruct (index x l2); reflexivity.
  - destruct (String.eqb y x); [reflexivity|].
    rewrite IH. destruct (index x r); simpl; [reflexivity|].
    destruct (index x l2); reflexivity.
Qed.

Lemma last_index_lt x l i : last_index x l = Some i -> (i < List.length l)%nat.
Proof.
  revert i. induction l as [|y r IH]; simpl; intros i; [discriminate|].
  destruct (last_index x r) as [j|].
  - intros [= <-]. specialize (IH j eq_refl). lia.
  - destruct (String.eqb y x); [intros [= <-]; lia | discriminate].
Qed.

(** [len(l) - l[::-1].index(x) - 1] is the last position of [x]. *)
Lemma index_rev_last x l :
  match last_index x l with
  | Some i => index x (List.rev l) = Return (List.length l - 1 - i)%nat
  | None => index x (List.rev l) = Raise ValueError
  end.
Proof.
  induction l as [|y r IH]; simpl; [reflexivity|].
  rewrite index_app. simpl.
  destruct (last_index x r) as [j|] eqn:Hj.
  - rewrite IH. f_equal. apply last_index_lt in Hj. lia.
  - rewrite IH. destruct (String.eqb y x); simpl; [|reflexivity].
    rewrite length_rev. f_equal. lia.
Qed.

Lemma last_index_none x l : last_index x l = None <-> ~ In x l.
Proof.
  induction l as [|y r IH]; simpl; [tauto|].
  destruct (last_index x r) as [j|].
  - split; [discriminate|]. intros H. exfalso. apply H. right.
    destruct (in_dec string_dec x r) as [|n]; [assumption|].
    apply IH in n. discriminate.
  - destruct (String.eqb_spec y x) as [->|Hne].
    + split; [discriminate|]. intros H. exfalso. apply H. now left.
    + split; [|reflexivity]. intros _ [H|H]; [congruence|].
      now apply (proj1 IH).
Qed.

Lemma last_index_app x l1 l2 :
  ~ In x l2 -> last_index x (l1 ++ x :: l2) = Some (List.length l1).
Proof.
  intros Hnot. apply last_index_none in Hnot.
  induction l1 as [|y r IH]; simpl.
  - rewrite Hnot, String.eqb_refl. reflexivity.
  - rewrite IH. reflexivity.
Qed.

Lemma last_index_split x l i :
  last_index x l = Some i ->
  nth_error l i = Some x /\ ~ In x (skipn (S i) l).
Proof.
  revert i. induction l as [|y r IH]; simpl; intros i; [discriminate|].
  destruct (last_index x r) as [j|] eqn:Hj.
  - intros [= <-]. simpl. now apply IH.
  - destruct (String.eqb_spec y x) as [->|]; [|discriminate].
    intros [= <-]. simpl. split; [reflexivity|]. now apply last_index_none.
Qed.

(** The body of [_read_lines] once the second line is the separator. *)
Lemma _read_lines_unfold lines i :
  nth_error lines 1 = Some _SEP ->
  last_index _SEP lines = Some i ->
  _read_lines lines =
    (_ <- assert (negb (Nat.eqb i 1) && negb (Nat.eqb i 2)) Second_separator ;;
     title <- item lines 0 ;;
     start_date_str <- item lines (i + 1) ;;
     series <- (if list_eqb (slice_from lines (i + 2)) [""] then Return []
                else mapM Result.from_str (slice_from lines (i + 2))) ;;
     Return (title, join LF (slice lines 2 i), start_date_str, series)).
Proof.
  intros H1 Hlast. unfold _read_lines, item at 1. rewrite H1. simpl bind at 1.
  pose proof (index_rev_last _SEP lines) as Hrev. rewrite Hlast in Hrev.
  rewrite Hrev. simpl bind at 1.
  apply last_index_lt in Hlast.
  replace (List.length lines - (List.length lines - 1 - i) - 1)%nat with i by lia.
  reflexivity.
Qed.

Lemma mapM_from_str_codes l :
  forallb is_result_code l = true ->
  exists series, mapM Result.from_str l = Return series
                 /\ map Result.value series = l.
Proof.
  induction l as [|s r IH]; simpl.
  - intros _. exists []. split; reflexivity.
  - intros H. apply andb_prop in H as [Hs Hr].
    destruct (IH Hr) as (series & Hm & Hv). rewrite Hm.
    unfold is_result_code in Hs. unfold Result.from_str.
    destruct (String.eqb_spec s "+") as [->|].
    { exists (Result.GOOD :: series). simpl. now rewrite Hv. }
    destruct (String.eqb_spec s "-") as [->|].
    { exists (Result.BAD :: series). simpl. now rewrite Hv. }
    destruct (String.eqb_spec s "?") as [->|]; [|discriminate].
    exists (Result.UNKNOWN :: series). simpl. now rewrite Hv.
Qed.

Lemma mapM_from_str_other l :
  forallb is_result_code l = false ->
  mapM Result.from_str l = Raise (AssertionError Unknown_result_code).
Proof.
  induction l as [|s r IH]; simpl; [discriminate|].
  intros H. apply andb_false_iff in H as [Hs|Hr].
  - unfold is_result_code in Hs. unfold Result.from_str.
    destruct (String.eqb s "+"); [discriminate|].
    destruct (String.eqb s "-"); [discriminate|].
    destruct (String.eqb s "?"); [discriminate|]. reflexivity.
  - rewrite (IH Hr). unfold Result.from_str.
    destruct (String.eqb s "+"); [reflexivity|].
    destruct (String.eqb s "-"); [reflexivity|].
    destruct (String.eqb s "?"); reflexivity.
Qed.

Lemma mapM_from_str_value series :
  mapM Result.from_str (map Result.value series) = Return series.
Proof.
  induction series as [|r l IH]; simpl; [reflexivity|].
  rewrite IH. destruct r; reflexivity.
Qed.

(** ** Reading a record *)

Lemma _read_lines_short lines :
  (List.length lines < 2)%nat -> _read_lines lines = Raise IndexError.
Proof.
  destruct lines as [|l0 [|l1 rest]]; simpl; intros H; try reflexivity. lia.
Qed.

Lemma _read_lines_first_separator lines :
  (2 <= List.length lines)%nat -> nth 1 lines "" <> _SEP ->
  _read_lines lines = Raise (AssertionError First_separator).
Proof.
  destruct lines as [|l0 [|l1 rest]]; simpl; intros H Hne; try lia.
  unfold _read_lines, item. simpl nth_error. simpl bind at 1.
  destruct (String.eqb_spec l1 _SEP); [contradiction | reflexivity].
Qed.

(** C7, as the claim has it, fails: a record whose last separator is its
    last line has two lines or more, the separator on its second line and
    again, not next to it, on its fourth, and no line after the start
    date at all; yet reading it raises, on the line of the start date. *)
Lemma record_ending_with_separator :
  let lines := ["Read"; _SEP; "Ten pages"; _SEP] in
  let text := "Read" ++ String LF _SEP ++ String LF "Ten pages"
              ++ String LF _SEP ++ String LF "" in
  splitlines (universal_newlines text) = lines
  /\ (2 <= List.length lines)%nat
  /\ nth_error lines 1 = Some _SEP
  /\ last_index _SEP lines = Some 3%nat
  /\ slice_from lines (3 + 2) = []
  /\ _read_lines lines = Raise IndexError
  /\ _read_habit (Some [("0", text)]) "0" = Raise IndexError.
Proof. repeat split; try reflexivity. simpl. lia. Qed.

(** C7, amended. Reading raises exactly on the lines [corrupt] tells:
    fewer than two lines, a second line that is not the separator, the
    last separator at position 1 (no second separator) or 2 (next to the
    first), the last separator on the last line (no start date), or, after
    the start date, lines that are not the single empty line and not all
    of "+", "-", "?".  On all other lines it returns line 0 as the title,
    the lines between position 1 and the last separator as the
    description, the line after that separator as the start date and the
    results of the codes that follow. *)
Theorem read_lines_raises_iff_corrupt :
  forall lines : list string,
    (raises (_read_lines lines) <-> corrupt lines = true)
    /\ (corrupt lines = false ->
        exists (i : nat) (series : list Result.t),
          last_index _SEP lines = Some i
          /\ _read_lines lines
             = Return (nth 0 lines "", join LF (slice lines 2 i),
                       nth (i + 1) lines "", series)
          /\ (slice_from lines (i + 2) = [""] -> series = [])
          /\ (slice_from lines (i + 2) <> [""] ->
              map Result.value series = slice_from lines (i + 2))).
Proof.
  intros lines.
  destruct (Nat.ltb_spec (List.length lines) 2) as [Hshort|Hlong].
  { unfold corrupt. rewrite (proj2 (Nat.ltb_lt _ _) Hshort). simpl.
    rewrite (_read_lines_short lines Hshort).
    split; [|discriminate]. split; [reflexivity|]. intros _. now exists IndexError. }
  destruct (String.eqb_spec (nth 1 lines "") _SEP) as [Hsep|Hsep].
  2:{ unfold corrupt. rewrite (proj2 (Nat.ltb_ge _ _) Hlong).
      rewrite (proj2 (String.eqb_neq _ _) Hsep). simpl.
      rewrite (_read_lines_first_separator lines Hlong Hsep).
      split; [|discriminate]. split; [reflexivity|]. intros _. now eexists. }
  assert (nth_error lines 1 = Some _SEP) as H1.
  { rewrite <- Hsep. apply nth_error_nth'. lia. }
  destruct (last_index _SEP lines) as [i|] eqn:Hlast.
  2:{ apply last_index_none in Hlast. exfalso. apply Hlast.
      eapply nth_error_In. exact H1. }
  rewrite (_read_lines_unfold lines i H1 Hlast).
  unfold corrupt. rewrite Hlast, (proj2 (Nat.ltb_ge _ _) Hlong).
  rewrite Hsep, String.eqb_refl. cbn [negb orb].
  destruct (Nat.eqb i 1); cbn [negb andb orb assert bind].
  { split; [|discriminate]. split; [reflexivity|]. intros _. now eexists. }
  destruct (Nat.eqb i 2); cbn [negb andb orb assert bind].
  { split; [|discriminate]. split; [reflexivity|]. intros _. now eexists. }
  assert (item lines 0 = Return (nth 0 lines "")) as ->.
  { unfold item. rewrite (nth_error_nth' lines "") by lia. reflexivity. }
  cbn [bind].
  destruct (Nat.leb_spec (List.length lines) (i + 1)) as [Hend|Hstart].
  { assert (item lines (i + 1) = Raise IndexError) as ->.
    { unfold item. now rewrite (proj2 (nth_error_None lines (i + 1)) Hend). }
    cbn [orb bind].
    split; [|discriminate]. split; [reflexivity|]. intros _. now eexists. }
  assert (item lines (i + 1) = Return (nth (i + 1) lines "")) as ->.
  { unfold item. rewrite (nth_error_nth' lines "") by lia. reflexivity. }
  cbn [orb bind].
  unfold list_eqb.
  destruct (list_eq_dec string_dec (slice_from lines (i + 2)) [""]) as [Hone|Hone].
  { cbn [negb andb bind]. split.
    - split; [intros [e He]; discriminate | discriminate].
    - intros _. exists i, [].
      split; [reflexivity|]. split; [reflexivity|].
      split; [reflexivity | contradiction]. }
  cbn [negb andb].
  destruct (forallb is_result_code (slice_from lines (i + 2))) eqn:Hcodes.
  - destruct (mapM_from_str_codes _ Hcodes) as (series & Hm & Hv).
    rewrite Hm. cbn [negb bind]. split.
    + split; [intros [e He]; discriminate | discriminate].
    + intros _. exists i, series.
      split; [reflexivity|]. split; [reflexivity|].
      split; [contradiction | intros _; exact Hv].
  - rewrite (mapM_from_str_other _ Hcodes). cbn [negb bind].
    split; [|discriminate]. split; [reflexivity|]. intros _. now eexists.
Qed.

(** ** Writing a record and reading it back *)

Lemma all_chars_app p s1 s2 :
  all_chars p (s1 ++ s2) = all_chars p s1 && all_chars p s2.
Proof.
  induction s1 as [|c r IH]; simpl; [reflexivity|].
  rewrite IH. apply andb_assoc.
Qed.

Lemma all_chars_impl (p q : ascii -> bool) s :
  (forall c, p c = true -> q c = true) ->
  all_chars p s = true -> all_chars q s = true.
Proof.
  intros Hpq. induction s as [|c r IH]; simpl; [reflexivity|].
  intros H. apply andb_prop in H as [Hc Hr].
  rewrite (Hpq c Hc), (IH Hr). reflexivity.
Qed.

Lemma append_line a rest : (a ++ String LF "") ++ rest = a ++ String LF rest.
Proof. induction a as [|c r IH]; simpl; [reflexivity | now rewrite IH]. Qed.

Lemma split_nonempty sep s : split sep s <> [].
Proof.
  destruct s as [|c r]; simpl; [discriminate|].
  destruct (Ascii.eqb c sep); [discriminate|].
  destruct (split sep r); discriminate.
Qed.

Lemma linebreak_CR c : is_linebreak c = false -> Ascii.eqb c CR = false.
Proof.
  intros H. destruct (Ascii.eqb_spec c CR) as [->|]; [discriminate | reflexivity].
Qed.

Lemma splitlines_line l rest :
  single_line l = true ->
  splitlines (l ++ String LF rest) = l :: splitlines rest.
Proof.
  unfold single_line. induction l as [|c r IH]; simpl; intros H.
  - reflexivity.
  - apply andb_prop in H as [Hc Hr]. apply negb_true_iff in Hc.
    rewrite (linebreak_CR c Hc), Hc, (IH Hr). reflexivity.
Qed.

Lemma splitlines_text d rest :
  breaks_at_LF_only d = true ->
  splitlines (d ++ String LF rest) = (split LF d ++ splitlines rest)%list.
Proof.
  unfold breaks_at_LF_only. induction d as [|c r IH]; simpl; intros H.
  - reflexivity.
  - apply andb_prop in H as [Hc Hr]. specialize (IH Hr).
    destruct (Ascii.eqb_spec c LF) as [->|Hne].
    + simpl. now rewrite IH.
    + rewrite orb_false_r in Hc. apply negb_true_iff in Hc.
      rewrite (linebreak_CR c Hc), Hc, IH.
      pose proof (split_nonempty LF r) as Hs.
      destruct (split LF r); [contradiction | reflexivity].
Qed.

Lemma join_cons sep x y l :
  join sep (x :: y :: l) = x ++ String sep (join sep (y :: l)).
Proof. reflexivity. Qed.

Lemma join_split d : join LF (split LF d) = d.
Proof.
  induction d as [|c r IH]; [reflexivity|].
  pose proof (split_nonempty LF r) as Hs. simpl split.
  destruct (Ascii.eqb_spec c LF) as [->|Hne].
  - destruct (split LF r) as [|x l]; [contradiction|].
    rewrite join_cons, IH. reflexivity.
  - destruct (split LF r) as [|x l]; [contradiction|].
    destruct l as [|y l].
    + simpl in *. now rewrite IH.
    + rewrite join_cons. rewrite join_cons in IH. rewrite <- IH. reflexivity.
Qed.

Lemma universal_newlines_no_CR s :
  all_chars (fun c => negb (Ascii.eqb c CR)) s = true ->
  universal_newlines s = s.
Proof.
  induction s as [|c r IH]; simpl; [reflexivity|].
  intros H. apply andb_prop in H as [Hc Hr]. apply negb_true_iff in Hc.
  rewrite Hc, (IH Hr). reflexivity.
Qed.

Lemma single_line_no_CR s :
  single_line s = true -> all_chars (fun c => negb (Ascii.eqb c CR)) s = true.
Proof.
  apply all_chars_impl. intros c H. apply negb_true_iff in H.
  now rewrite (linebreak_CR c H).
Qed.

Lemma breaks_at_LF_only_no_CR s :
  breaks_at_LF_only s = true ->
  all_chars (fun c => negb (Ascii.eqb c CR)) s = true.
Proof.
  apply all_chars_impl. intros c H.
  destruct (Ascii.eqb_spec c CR) as [->|]; [discriminate | reflexivity].
Qed.

Lemma single_line_value r : single_line (Result.value r) = true.
Proof. destruct r; reflexivity. Qed.

Lemma append_after_line a x rest :
  (a ++ String LF x) ++ rest = a ++ String LF (x ++ rest).
Proof. induction a as [|c r IH]; simpl; [reflexivity | now rewrite IH]. Qed.

Lemma splitlines_series series :
  splitlines (join LF (map Result.value series) ++ String LF "")
  = series_lines series.
Proof.
  destruct series as [|r l]; [reflexivity|].
  unfold series_lines. revert r. induction l as [|r' l IH]; intros r.
  - cbn [map join].
    now rewrite (splitlines_line _ _ (single_line_value r)).
  - specialize (IH r'). cbn [map] in *.
    rewrite join_cons, append_after_line.
    rewrite (splitlines_line _ _ (single_line_value r)).
    now rewrite IH.
Qed.

Lemma no_CR_series series :
  all_chars (fun c => negb (Ascii.eqb c CR))
    (join LF (map Result.value series)) = true.
Proof.
  destruct series as [|r l]; [reflexivity|].
  revert r. induction l as [|r' l IH]; intros r.
  - destruct r; reflexivity.
  - specialize (IH r'). cbn [map] in *.
    rewrite join_cons, all_chars_app. cbn [all_chars].
    rewrite IH. destruct r; reflexivity.
Qed.

Lemma no_CR_record title description start_date_str series :
  single_line title = true ->
  breaks_at_LF_only description = true ->
  single_line start_date_str = true ->
  universal_newlines (record_text title description start_date_str series)
  = record_text title description start_date_str series.
Proof.
  intros Ht Hd Hs. apply universal_newlines_no_CR.
  unfold record_text. rewrite !all_chars_app.
  rewrite (single_line_no_CR _ Ht), (breaks_at_LF_only_no_CR _ Hd),
    (single_line_no_CR _ Hs), no_CR_series.
  reflexivity.
Qed.

Lemma record_lines title description start_date_str series :
  single_line title = true ->
  breaks_at_LF_only description = true ->
  single_line start_date_str = true ->
  splitlines (record_text title description start_date_str series)
  = ((title :: _SEP :: split LF description)
     ++ _SEP :: start_date_str :: series_lines series)%list.
Proof.
  intros Ht Hd Hs. unfold record_text.
  rewrite !append_line.
  rewrite (splitlines_line _ _ Ht).
  rewrite (splitlines_line _SEP _ eq_refl).
  rewrite (splitlines_text _ _ Hd).
  rewrite (splitlines_line _SEP _ eq_refl).
  rewrite (splitlines_line _ _ Hs).
  rewrite splitlines_series. reflexivity.
Qed.

Lemma firstn_length_app {A : Type} (l1 l2 : list A) :
  firstn (List.length l1) (l1 ++ l2) = l1.
Proof. induction l1 as [|x r IH]; simpl; [now destruct l2 | now rewrite IH]. Qed.

Lemma nth_error_after {A : Type} (l1 l2 : list A) x y :
  nth_error (l1 ++ x :: y :: l2) (List.length l1 + 1) = Some y.
Proof. induction l1 as [|z r IH]; simpl; [reflexivity | exact IH]. Qed.

Lemma skipn_after {A : Type} (l1 l2 : list A) x y :
  skipn (List.length l1 + 2) (l1 ++ x :: y :: l2) = l2.
Proof. induction l1 as [|z r IH]; simpl; [reflexivity | exact IH]. Qed.

Lemma series_lines_no_separator series : ~ In _SEP (series_lines series).
Proof.
  destruct series as [|r l]; simpl.
  - intros [H|[]]. discriminate.
  - intros [H|H]; [destruct r; discriminate|].
    apply in_map_iff in H as (r' & Hr' & _). destruct r'; discriminate.
Qed.

Lemma read_series_lines series :
  (if list_eqb (series_lines series) [""] then Return []
   else mapM Result.from_str (series_lines series)) = Return series.
Proof.
  destruct series as [|r l]; [reflexivity|].
  unfold list_eqb.
  destruct (list_eq_dec string_dec (series_lines (r :: l)) [""]) as [H|H].
  - destruct r; discriminate.
  - apply mapM_from_str_value.
Qed.

(** Reading the lines of a record: title, separator, the lines [dl] of the
    description, separator, start date, series. *)
Lemma read_lines_record title dl start_date_str series :
  dl <> [] ->
  start_date_str <> _SEP ->
  _read_lines ((title :: _SEP :: dl)
               ++ _SEP :: start_date_str :: series_lines series)%list
  = Return (title, join LF dl, start_date_str, series).
Proof.
  intros Hdl Hstart.
  set (head := title :: _SEP :: dl).
  set (sl := series_lines series).
  assert (~ In _SEP (start_date_str :: sl)) as Hnot.
  { intros [H|H]; [congruence|]. now apply series_lines_no_separator in H. }
  rewrite (_read_lines_unfold _ (List.length head)).
  2:{ reflexivity. }
  2:{ now apply last_index_app. }
  assert (negb (Nat.eqb (List.length head) 1)
          && negb (Nat.eqb (List.length head) 2) = true) as ->.
  { destruct dl; [contradiction | reflexivity]. }
  cbn [assert bind].
  unfold item. rewrite nth_error_after.
  unfold slice_from. rewrite skipn_after.
  unfold sl. rewrite read_series_lines. cbn [bind nth_error].
  subst head. cbn [List.app nth_error bind].
  do 3 f_equal. unfold slice. cbn [skipn List.length Nat.sub].
  rewrite Nat.sub_0_r. now rewrite firstn_length_app.
Qed.

Lemma lookup_store name content d :
  lookup name (store name content d) = Some content.
Proof.
  induction d as [|[n c] r IH]; simpl.
  - now rewrite String.eqb_refl.
  - destruct (String.eqb n name) eqn:E; simpl; rewrite E; [reflexivity | exact IH].
Qed.

(** A record written is read back, whatever the description holds between
    its LF. *)
Lemma read_habit_written fs habit_id title description start_date_str series :
  single_line title = true ->
  breaks_at_LF_only description = true ->
  single_line start_date_str = true ->
  start_date_str <> _SEP ->
  _read_habit
    (_write_habit fs habit_id title description start_date_str series)
    habit_id
  = Return (title, description, start_date_str, series).
Proof.
  intros Ht Hd Hs Hne.
  unfold _read_habit, _write_habit, exists_file, read_text.
  cbn [exists_habits assert bind]. rewrite lookup_store. cbn [assert bind].
  rewrite (no_CR_record _ _ _ _ Ht Hd Hs).
  rewrite (record_lines _ _ _ _ Ht Hd Hs).
  rewrite read_lines_record by (apply split_nonempty || assumption).
  now rewrite join_split.
Qed.

(** ** Integers written and read *)

Lemma digits_of_uint u : all_chars is_digit (NilEmpty.string_of_uint u) = true.
Proof. induction u; simpl; auto. Qed.

Lemma string_of_uint_empty u : NilEmpty.string_of_uint u = "" -> u = Nil.
Proof. destruct u; simpl; intros H; [reflexivity | discriminate ..]. Qed.

Lemma digit_not_space c : is_digit c = true -> is_space c = false.
Proof.
  unfold is_digit, is_space. intros H. apply andb_prop in H as [H1 H2].
  apply Z.leb_le in H1. apply Z.leb_le in H2.
  repeat match goal with
         | |- context [?a <=? ?b] => destruct (Z.leb_spec a b); try lia
         | |- context [?a =? ?b] => destruct (Z.eqb_spec a b); try lia
         end; reflexivity.
Qed.

Lemma digit_not_linebreak c : is_digit c = true -> is_linebreak c = false.
Proof.
  unfold is_digit, is_linebreak. intros H. apply andb_prop in H as [H1 H2].
  apply Z.leb_le in H1. apply Z.leb_le in H2.
  repeat match goal with
         | |- context [?a <=? ?b] => destruct (Z.leb_spec a b); try lia
         | |- context [?a =? ?b] => destruct (Z.eqb_spec a b); try lia
         end; reflexivity.
Qed.

Lemma digit_not_sign c :
  is_digit c = true ->
  Ascii.eqb c "-" = false /\ Ascii.eqb c "+" = false /\ Ascii.eqb c "_" = false.
Proof.
  intros H. repeat split.
  - destruct (Ascii.eqb_spec c "-") as [->|]; [discriminate | reflexivity].
  - destruct (Ascii.eqb_spec c "+") as [->|]; [discriminate | reflexivity].
  - destruct (Ascii.eqb_spec c "_") as [->|]; [discriminate | reflexivity].
Qed.

Lemma lstrip_no_space s :
  all_chars (fun c => negb (is_space c)) s = true -> lstrip s = s.
Proof.
  destruct s as [|c r]; simpl; [reflexivity|].
  intros H. apply andb_prop in H as [Hc _]. apply negb_true_iff in Hc.
  now rewrite Hc.
Qed.

Lemma rstrip_no_space s :
  all_chars (fun c => negb (is_space c)) s = true -> rstrip s = s.
Proof.
  induction s as [|c r IH]; simpl; [reflexivity|].
  intros H. apply andb_prop in H as [Hc Hr]. apply negb_true_iff in Hc.
  rewrite (IH Hr), Hc. destruct r; reflexivity.
Qed.

Lemma literal_digits_all s :
  all_chars is_digit s = true -> literal_digits true s = Some s.
Proof.
  induction s as [|c r IH]; simpl; [reflexivity|].
  intros H. apply andb_prop in H as [Hc Hr].
  rewrite Hc, (IH Hr). reflexivity.
Qed.

Lemma literal_digits_nonempty s :
  all_chars is_digit s = true -> s <> "" -> literal_digits false s = Some s.
Proof.
  destruct s as [|c r]; simpl; [contradiction|].
  intros H _. apply andb_prop in H as [Hc Hr].
  rewrite Hc, (literal_digits_all r Hr). reflexivity.
Qed.

(** [int] of a non-empty run of digits, with or without a minus sign. *)
Lemma int_digits u :
  u <> Nil ->
  int (NilEmpty.string_of_uint u) = Return (Z.of_uint u)
  /\ int (String "-" (NilEmpty.string_of_uint u)) = Return (- Z.of_uint u).
Proof.
  intros Hu.
  pose proof (digits_of_uint u) as Hd.
  assert (NilEmpty.string_of_uint u <> "") as Hne.
  { intros H. now apply string_of_uint_empty in H. }
  assert (all_chars (fun c => negb (is_space c)) (NilEmpty.string_of_uint u)
          = true) as Hsp.
  { revert Hd. apply all_chars_impl. intros c H.
    now rewrite (digit_not_space c H). }
  split.
  - unfold int. rewrite (lstrip_no_space _ Hsp), (rstrip_no_space _ Hsp).
    destruct (NilEmpty.string_of_uint u) as [|c r] eqn:E; [contradiction|].
    assert (is_digit c = true) as Hc.
    { simpl in Hd. now apply andb_prop in Hd as [Hc _]. }
    destruct (digit_not_sign c Hc) as (-> & -> & _).
    rewrite (literal_digits_nonempty _ Hd) by discriminate.
    rewrite <- E, NilEmpty.usu. reflexivity.
  - unfold int.
    rewrite lstrip_no_space by (simpl; now rewrite Hsp).
    rewrite rstrip_no_space by (simpl; now rewrite Hsp).
    cbn [Ascii.eqb Bool.eqb].
    rewrite (literal_digits_nonempty _ Hd Hne), NilEmpty.usu. reflexivity.
Qed.

Lemma int_str n : int (str n) = Return n.
Proof.
  unfold str. destruct n as [|p|p]; [reflexivity| |]; simpl.
  - pose proof (DecimalPos.Unsigned.to_uint_nonnil p) as Hp.
    assert (NilZero.string_of_uint (Pos.to_uint p)
            = NilEmpty.string_of_uint (Pos.to_uint p)) as ->.
    { destruct (Pos.to_uint p); [contradiction | reflexivity ..]. }
    rewrite (proj1 (int_digits _ Hp)). unfold Z.of_uint.
    now rewrite DecimalPos.Unsigned.of_to.
  - pose proof (DecimalPos.Unsigned.to_uint_nonnil p) as Hp.
    assert (NilZero.string_of_uint (Pos.to_uint p)
            = NilEmpty.string_of_uint (Pos.to_uint p)) as ->.
    { destruct (Pos.to_uint p); [contradiction | reflexivity ..]. }
    rewrite (proj2 (int_digits _ Hp)). unfold Z.of_uint.
    now rewrite DecimalPos.Unsigned.of_to.
Qed.

Lemma str_chars n : all_chars is_digit_or_minus (str n) = true.
Proof.
  assert (forall u, all_chars is_digit_or_minus (NilZero.string_of_uint u) = true)
    as Hu.
  { intros u. destruct u; try reflexivity;
      (eapply all_chars_impl; [|apply digits_of_uint]);
      intros c H; unfold is_digit_or_minus; now rewrite H. }
  unfold str. destruct (Z.to_int n); simpl; [apply Hu|].
  now rewrite Hu.
Qed.

Lemma date_to_str_chars date :
  all_chars is_digit_or_minus (_date_to_str date) = true.
Proof.
  unfold _date_to_str. rewrite !all_chars_app, !str_chars. reflexivity.
Qed.

(** The text of a date is one line and is not the separator. *)
Lemma date_to_str_line date :
  single_line (_date_to_str date) = true /\ _date_to_str date <> _SEP.
Proof.
  pose proof (date_to_str_chars date) as H. split.
  - revert H. apply all_chars_impl. intros c Hc.
    unfold is_digit_or_minus in Hc. apply orb_prop in Hc as [Hc|Hc].
    + now rewrite (digit_not_linebreak c Hc).
    + apply Ascii.eqb_eq in Hc as ->. reflexivity.
  - intros E. rewrite E in H. discriminate.
Qed.

(** C6, as the claim has it, fails: a description with a CR LF between
    its two lines holds no line equal to the separator, and is read back
    with the LF alone. *)
Lemma description_with_CR_LF_read_back :
  let description := "a" ++ String CR (String LF "b") in
  "Read" <> ""
  /\ single_line "Read" = true
  /\ ~ In _SEP (splitlines description)
  /\ ~ In _SEP (split LF description)
  /\ _read_habit (_write_habit None "0" "Read" description "2024-1-4" []) "0"
     = Return ("Read", "a" ++ String LF "b", "2024-1-4", [])
  /\ find (save None (Make "0" "Read" description "2024-1-4" []))
       (Some "0") None
     <> Return (Make "0" "Read" description "2024-1-4" []).
Proof.
  simpl. repeat split; try discriminate.
  - intros [H|[H|[]]]; discriminate.
  - intros [H|[H|[]]]; discriminate.
Qed.

(** C6, amended. A habit is read back as it was written when its title
    is one non-empty line, its description has no line boundary other
    than LF and no line equal to the separator, and its start date is one
    line other than the separator, as the text of every date is; the
    series is any list of results, the description may be empty. *)
Theorem read_habit_write_habit :
  forall (fs : filesystem) (h : Habit.t),
    title h <> "" ->
    single_line (title h) = true ->
    breaks_at_LF_only (description h) = true ->
    ~ In _SEP (split LF (description h)) ->
    single_line (_start_date_str h) = true ->
    _start_date_str h <> _SEP ->
    _read_habit (save fs h) (_habit_id h)
    = Return (title h, description h, _start_date_str h, _series h)
    /\ find (save fs h) (Some (_habit_id h)) None = Return h.
Proof.
  intros fs h _ Ht Hd _ Hs Hne.
  assert (_read_habit (save fs h) (_habit_id h)
          = Return (title h, description h, _start_date_str h, _series h)) as Hr.
  { unfold save. now apply read_habit_written. }
  split; [exact Hr|].
  unfold find. cbn [bind]. rewrite Hr. cbn [bind]. now destruct h.
Qed.

Lemma read_habit_write_habit_witness :
  find (save None
          (Make "7" "Read" ("Ten pages" ++ String LF "" ++ String LF "a day")
             (_date_to_str (Datetime 2024 1 4 0 0 0 0))
             [Result.GOOD; Result.UNKNOWN]))
    (Some "7") None
  = Return (Make "7" "Read" ("Ten pages" ++ String LF "" ++ String LF "a day")
              (_date_to_str (Datetime 2024 1 4 0 0 0 0))
              [Result.GOOD; Result.UNKNOWN]).
Proof.
  refine (proj2 (read_habit_write_habit None
            (Make "7" "Read" ("Ten pages" ++ String LF "" ++ String LF "a day")
               (_date_to_str (Datetime 2024 1 4 0 0 0 0))
               [Result.GOOD; Result.UNKNOWN]) _ _ _ _ _ _)).
  - discriminate.
  - reflexivity.
  - reflexivity.
  - simpl. intros [H|[H|[H|[]]]]; discriminate.
  - reflexivity.
  - discriminate.
Defined.

(** ** Numbering of the habits *)

Lemma mapM_int_str ids : mapM int (map str ids) = Return ids.
Proof.
  induction ids as [|n r IH]; simpl; [reflexivity|].
  now rewrite int_str, IH.
Qed.

Lemma str_inj a b : str a = str b -> a = b.
Proof.
  intros H. pose proof (int_str a) as Ha. rewrite H, int_str in Ha.
  now injection Ha.
Qed.

Lemma fold_max_spec r x :
  let m := fold_left Z.max r x in
  (m = x \/ In m r) /\ x <= m /\ forall n, In n r -> n <= m.
Proof.
  revert x. induction r as [|y r IH]; intros x; simpl.
  - split; [now left|]. split; [lia | contradiction].
  - destruct (IH (Z.max x y)) as (Hin & Hle & Hall).
    split; [|split].
    + destruct Hin as [E|Hin]; [|right; right; exact Hin].
      destruct (Z.max_spec x y) as [[_ E']|[_ E']]; rewrite E' in *.
      * right; left. now symmetry.
      * now left.
    + lia.
    + intros n [<-|Hn]; [lia | now apply Hall].
Qed.

Lemma next_id_spec ids :
  (ids = [] -> next_id ids = 0)
  /\ (ids <> [] -> In (next_id ids - 1) ids)
  /\ (forall n, In n ids -> n < next_id ids).
Proof.
  destruct ids as [|x r]; simpl.
  - split; [reflexivity|]. split; [congruence | contradiction].
  - destruct (fold_max_spec r x) as (Hin & Hle & Hall).
    split; [discriminate|]. split.
    + intros _. replace (fold_left Z.max r x + 1 - 1) with (fold_left Z.max r x)
        by lia.
      destruct Hin as [->|Hin]; [now left | now right].
    + intros n [<-|Hn]; [lia|]. specialize (Hall n Hn). lia.
Qed.

(** [create] in a directory whose files are named by the numbers [ids]. *)
Lemma create_next_id now fs ids title description start_date_str series :
  map fst (ensure_habits fs) = map str ids ->
  create now fs title description start_date_str series
  = Return (Some (ensure_habits fs),
            Make (str (next_id ids)) title description
              (match start_date_str with
               | None => _get_today_str now
               | Some s => s
               end)
              (match series with
               | None => []
               | Some l => l
               end)).
Proof.
  intros Hnames. unfold create, _find_latest_habit_id, listdir.
  rewrite Hnames. cbn [bind]. unfold len. rewrite length_map.
  destruct ids as [|x r].
  - reflexivity.
  - cbn [List.length]. rewrite mapM_int_str.
    replace (Z.of_nat (S (List.length r)) =? 0) with false
      by (symmetry; apply Z.eqb_neq; lia).
    cbn [bind maximum]. rewrite int_str. reflexivity.
Qed.

Lemma lookup_in name d :
  In name (map fst d) -> exists c, lookup name d = Some c.
Proof.
  induction d as [|[n c] r IH]; simpl; [contradiction|].
  intros [->|H].
  - rewrite String.eqb_refl. now exists c.
  - destruct (String.eqb n name); [now exists c | now apply IH].
Qed.

Lemma unlink_names d ids x :
  NoDup ids ->
  map fst d = map str ids ->
  map fst (unlink (str x) d) = map str (List.remove Z.eq_dec x ids).
Proof.
  revert ids. induction d as [|[n c] r IH]; intros ids Hnd Hnames;
    destruct ids as [|y ids]; try discriminate; [reflexivity|].
  simpl in Hnames. injection Hnames as -> Hrest.
  inversion Hnd as [|? ? Hy Hnd']; subst.
  cbn [unlink List.remove].
  destruct (String.eqb_spec (str y) (str x)) as [E|E].
  - apply str_inj in E as ->.
    destruct (Z.eq_dec x x) as [_|]; [|contradiction].
    now rewrite notin_remove.
  - destruct (Z.eq_dec x y) as [->|_]; [contradiction|].
    cbn [map fst]. f_equal. now apply IH.
Qed.

(** C8, as the claim has it, fails: after three habits are created and
    saved and the one numbered 2 is removed, the next [create] gives the
    number 2 again. *)
Lemma largest_id_allocated_again :
  exists (fs fs' fs'' : filesystem) (h2 h : Habit.t),
    three_habits = Return fs
    /\ listdir fs = Return ["0"; "1"; "2"]
    /\ find fs (Some "2") None = Return h2
    /\ remove fs h2 false "" = Return fs'
    /\ listdir fs' = Return ["0"; "1"]
    /\ create morning_2024_1_4 fs' "Write" "" None None = Return (fs'', h)
    /\ get_habit_id h = "2".
Proof.
  do 5 eexists.
  split; [vm_compute; reflexivity|].
  split; [reflexivity|].
  split; [vm_compute; reflexivity|].
  split; [vm_compute; reflexivity|].
  split; [reflexivity|].
  split; [vm_compute; reflexivity|].
  reflexivity.
Qed.

(** The example of the claim: with the habit numbered 1 removed, the next
    number is 3. *)
Example inner_id_not_allocated_again :
  exists (fs fs' fs'' : filesystem) (h1 h : Habit.t),
    three_habits = Return fs
    /\ find fs (Some "1") None = Return h1
    /\ remove fs h1 false "" = Return fs'
    /\ listdir fs' = Return ["0"; "2"]
    /\ create morning_2024_1_4 fs' "Write" "" None None = Return (fs'', h)
    /\ get_habit_id h = "3".
Proof.
  do 5 eexists.
  split; [vm_compute; reflexivity|].
  split; [vm_compute; reflexivity|].
  split; [vm_compute; reflexivity|].
  split; [reflexivity|].
  split; [vm_compute; reflexivity|].
  reflexivity.
Qed.

(** C8, amended. In a directory whose files are named by the numbers
    [ids], [create] gives the new habit the largest number plus one, and 0
    when there is no file; it returns the habit and writes no file.  After
    a habit is removed the next number is again the largest left plus one:
    larger than the number removed while a larger number is in use, and not
    larger than it when it was the largest, the same when its predecessor
    is in use. *)
Theorem create_allocates_next_id :
  forall (now : datetime) (fs : filesystem) (ids : list Z)
         (title description : string) (start_date_str : option string)
         (series : option (list Result.t)),
    map fst (ensure_habits fs) = map str ids ->
    Forall (fun n => 0 <= n) ids ->
    NoDup ids ->
    (exists h,
       create now fs title description start_date_str series
       = Return (Some (ensure_habits fs), h)
       /\ get_habit_id h = str (next_id ids))
    /\ (ids = [] -> next_id ids = 0)
    /\ (forall m, In m ids -> (forall n, In n ids -> n <= m) ->
        next_id ids = m + 1)
    /\ (forall (removed : Z) (h : Habit.t),
          In removed ids ->
          get_habit_id h = str removed ->
          let ids' := List.remove Z.eq_dec removed ids in
          exists d' : directory,
            remove fs h false "" = Return (Some d')
            /\ map fst d' = map str ids'
            /\ (exists h',
                  create now (Some d') title description start_date_str series
                  = Return (Some d', h')
                  /\ get_habit_id h' = str (next_id ids'))
            /\ ((exists larger, In larger ids /\ removed < larger) ->
                removed < next_id ids')
            /\ ((forall n, In n ids -> n <= removed) ->
                next_id ids' <= removed)
            /\ ((forall n, In n ids -> n <= removed) ->
                In (removed - 1) ids -> next_id ids' = removed)).
Proof.
  intros now fs ids title description start_date_str series Hnames Hpos Hnd.
  destruct (next_id_spec ids) as (Hnil & Hmem & Hlt).
  split; [|split; [|split]].
  - eexists. split; [now apply (create_next_id now fs ids) | reflexivity].
  - exact Hnil.
  - intros m Hm Hmax. specialize (Hlt m Hm).
    assert (ids <> []) as Hne by (intros ->; contradiction).
    specialize (Hmax _ (Hmem Hne)). lia.
  - intros removed h Hin Hid ids'.
    destruct fs as [d|]; [|destruct ids; [contradiction | discriminate]].
    cbn [ensure_habits] in Hnames.
    exists (unlink (str removed) d).
    pose proof (unlink_names d ids removed Hnd Hnames) as Hnames'.
    fold ids' in Hnames'.
    destruct (next_id_spec ids') as (Hnil' & Hmem' & Hlt').
    assert (forall n, In n ids' -> In n ids /\ n <> removed) as Hsub.
    { intros n Hn. now apply in_remove in Hn. }
    split; [|split; [exact Hnames'|split; [|split; [|split]]]].
    + unfold remove, os_remove. unfold get_habit_id in Hid. rewrite Hid.
      destruct (lookup_in (str removed) d) as [c ->]; [|reflexivity].
      rewrite Hnames. now apply in_map.
    + eexists.
      split; [now apply (create_next_id now (Some _) ids') | reflexivity].
    + intros (larger & Hl & Hgt).
      assert (In larger ids') as Hl' by (apply in_in_remove; [lia | exact Hl]).
      specialize (Hlt' _ Hl'). lia.
    + intros Hmax. destruct ids' as [|x r] eqn:E.
      * rewrite Forall_forall in Hpos. specialize (Hpos _ Hin).
        rewrite (Hnil' eq_refl). exact Hpos.
      * assert (x :: r <> []) as Hne by discriminate.
        destruct (Hsub _ (Hmem' Hne)) as [Hi Hneq].
        specialize (Hmax _ Hi). lia.
    + intros Hmax Hpred.
      assert (In (removed - 1) ids') as Hp
          by (apply in_in_remove; [lia | exact Hpred]).
      specialize (Hlt' _ Hp).
      assert (ids' <> []) as Hne by (intros E; rewrite E in Hp; contradiction).
      destruct (Hsub _ (Hmem' Hne)) as [Hi Hneq].
      specialize (Hmax _ Hi). lia.
Qed.

Lemma create_allocates_next_id_witness :
  exists h,
    create morning_2024_1_4 (Some [("0", ""); ("2", ""); ("1", "")])
      "Write" "" None None
    = Return (Some [("0", ""); ("2", ""); ("1", "")], h)
    /\ get_habit_id h = "3".
Proof.
  refine (proj1 (create_allocates_next_id morning_2024_1_4
            (Some [("0", ""); ("2", ""); ("1", "")]) [0; 2; 1]
            "Write" "" None None eq_refl _ _)).
  - repeat constructor; lia.
  - repeat constructor; simpl; lia.
Defined.

(** ** Finding a habit by its title *)

Lemma lookup_stored name content d :
  NoDup (map fst d) -> In (name, content) d -> lookup name d = Some content.
Proof.
  induction d as [|[n c] r IH]; simpl; [contradiction|].
  intros Hnd Hin. inversion Hnd as [|? ? Hn Hnd']; subst.
  destruct Hin as [[= -> ->]|Hin].
  - now rewrite String.eqb_refl.
  - destruct (String.eqb_spec n name) as [->|_]; [|now apply IH].
    exfalso. apply Hn. now apply (in_map fst) in Hin.
Qed.

Lemma read_habit_stored name content (d : directory) :
  NoDup (map fst d) -> In (name, content) d ->
  _read_habit (Some d) name = read_record content.
Proof.
  intros Hnd Hin. unfold _read_habit, exists_file, read_text.
  rewrite (lookup_stored name content d Hnd Hin). reflexivity.
Qed.

Lemma find_habit_id_loop_outcome (d : directory) title files desired_habit_id :
  NoDup (map fst d) ->
  incl files d ->
  Forall readable files ->
  _find_habit_id_loop (Some d) title (map fst files) desired_habit_id
  = loop_outcome desired_habit_id (filter (title_matches title) files).
Proof.
  intros Hnd. revert desired_habit_id.
  induction files as [|[name content] rest IH]; intros acc Hincl Hread.
  - reflexivity.
  - inversion Hread as [|? ? Hfile Hrest]; subst.
    assert (incl rest d) as Hincl' by (intros f Hf; apply Hincl; now right).
    cbn [map fst _find_habit_id_loop filter].
    rewrite (read_habit_stored name content d Hnd) by (apply Hincl; now left).
    unfold title_matches at 1. cbn [snd].
    unfold readable in Hfile. cbn [snd] in Hfile.
    destruct (read_record content) as [[[[t dsc] s] sr]|e].
    2:{ exfalso. apply Hfile. now exists e. }
    cbn [bind].
    destruct (String.eqb (lower t) (lower title)).
    + destruct acc as [a|]; cbn [assert bind loop_outcome].
      * now destruct (filter (title_matches title) rest).
      * rewrite (IH (Some name) Hincl' Hrest).
        now destruct (filter (title_matches title) rest) as [|[n c] more].
    + now apply IH.
Qed.

(** C9. In a directory of readable records, [find] by title returns the
    habit of the one file whose title equals the query up to letter case,
    raises "There is no habit with title ..." when no file has such a
    title and "There are more than 1 habits with title ..." when more
    than one has. *)
Theorem find_by_title :
  forall (d : directory) (title : string),
    NoDup (map fst d) ->
    Forall readable d ->
    let found := filter (title_matches title) d in
    (found = [] ->
     find (Some d) None (Some title) = Raise (AssertionError Title_is_found))
    /\ (forall habit_id content,
          found = [(habit_id, content)] ->
          exists found_title description start_date_str series,
            read_record content
            = Return (found_title, description, start_date_str, series)
            /\ lower found_title = lower title
            /\ find (Some d) None (Some title)
               = Return (Make habit_id found_title description
                           start_date_str series))
    /\ ((2 <= List.length found)%nat ->
        find (Some d) None (Some title)
        = Raise (AssertionError Title_is_unique)).
Proof.
  intros d title Hnd Hread found.
  pose proof (find_habit_id_loop_outcome d title d None Hnd (incl_refl d) Hread)
    as Hloop.
  fold found in Hloop.
  assert (find (Some d) None (Some title)
          = (desired <- loop_outcome None found ;;
             habit_id <- match desired with
                         | Some habit_id => Return habit_id
                         | None => Raise (AssertionError Title_is_found)
                         end ;;
             '(t, dsc, s, sr) <- _read_habit (Some d) habit_id ;;
             Return (Make habit_id t dsc s sr))) as Hfind.
  { unfold find, _find_habit_id, listdir. cbn [exists_habits assert bind].
    rewrite Hloop. now destruct (loop_outcome None found). }
  rewrite Hfind. split; [|split].
  - intros ->. reflexivity.
  - intros habit_id content Hfound. rewrite Hfound. cbn [loop_outcome bind].
    assert (In (habit_id, content) found) as Hin by (rewrite Hfound; now left).
    apply filter_In in Hin as [Hin Hmatch].
    rewrite (read_habit_stored habit_id content d Hnd Hin).
    unfold title_matches in Hmatch. cbn [snd] in Hmatch.
    destruct (read_record content) as [[[[t dsc] s] sr]|e]; [|discriminate].
    exists t, dsc, s, sr. apply String.eqb_eq in Hmatch.
    split; [reflexivity|]. split; [exact Hmatch | reflexivity].
  - intros Hlen. destruct found as [|[n c] [|f more]]; simpl in Hlen; try lia.
    reflexivity.
Qed.

Lemma find_by_title_witness :
  find read_and_Read None (Some "READ")
  = Raise (AssertionError Title_is_unique).
Proof.
  refine (proj2 (proj2 (find_by_title
            [("0", record_text "Read" "Ten pages" "2024-1-1" []);
             ("1", record_text "read" "A chapter" "2024-1-2" [Result.GOOD])]
            "READ" _ _)) _).
  - repeat constructor; simpl; intuition discriminate.
  - repeat constructor; intros [e He]; discriminate.
  - vm_compute. lia.
Defined.

Lemma read_lines_raises_iff_corrupt_witness :
  exists (i : nat) (series : list Result.t),
    last_index _SEP ["Read"; _SEP; "Ten"; "pages"; _SEP; "2024-1-1"; "+"; "?"]
    = Some i
    /\ _read_lines ["Read"; _SEP; "Ten"; "pages"; _SEP; "2024-1-1"; "+"; "?"]
       = Return ("Read",
                 join LF (slice ["Read"; _SEP; "Ten"; "pages"; _SEP;
                                 "2024-1-1"; "+"; "?"] 2 i),
                 nth (i + 1) ["Read"; _SEP; "Ten"; "pages"; _SEP;
                              "2024-1-1"; "+"; "?"] "",
                 series)
    /\ (slice_from ["Read"; _SEP; "Ten"; "pages"; _SEP; "2024-1-1"; "+"; "?"]
          (i + 2) = [""] -> series = [])
    /\ (slice_from ["Read"; _SEP; "Ten"; "pages"; _SEP; "2024-1-1"; "+"; "?"]
          (i + 2) <> [""] ->
        map Result.value series
        = slice_from ["Read"; _SEP; "Ten"; "pages"; _SEP; "2024-1-1"; "+"; "?"]
            (i + 2)).
Proof.
  exact (proj2 (read_lines_raises_iff_corrupt
                  ["Read"; _SEP; "Ten"; "pages"; _SEP; "2024-1-1"; "+"; "?"])
           eq_refl).
Defined.

(** * Further properties *)

(** ** Result codes *)

(** X1. [from_str] and [value] are inverse of each other: the code of a
    result reads as that result, a string that reads as a result is its
    code, and every other string raises. *)
Theorem from_str_value_inverse :
  forall (s : string) (r : Result.t),
    Result.from_str (Result.value r) = Return r
    /\ (Result.from_str s = Return r <-> s = Result.value r)
    /\ (raises (Result.from_str s) <-> is_result_code s = false).
Proof.
  intros s r. split; [destruct r; reflexivity|].
  unfold Result.from_str, is_result_code, raises.
  destruct (String.eqb_spec s "+") as [->|H1]; cbn [orb].
  { split; [split; [intros [= <-]; reflexivity | destruct r; intros [=]; reflexivity]|].
    split; [intros [e He]; discriminate | discriminate]. }
  destruct (String.eqb_spec s "-") as [->|H2]; cbn [orb].
  { split; [split; [intros [= <-]; reflexivity | destruct r; intros [=]; reflexivity]|].
    split; [intros [e He]; discriminate | discriminate]. }
  destruct (String.eqb_spec s "?") as [->|H3]; cbn [orb].
  { split; [split; [intros [= <-]; reflexivity | destruct r; intros [=]; reflexivity]|].
    split; [intros [e He]; discriminate | discriminate]. }
  split.
  - split; [discriminate|]. intros ->. destruct r; contradiction.
  - split; [reflexivity|]. intros _. now eexists.
Qed.

(** ** Counting and marking, whatever the state *)

Lemma get_num_missing_days_returns now h including_today n :
  get_num_missing_days now h including_today = Return n ->
  exists num_days,
    elapsed_days now h = Return num_days
    /\ len (_series h) <= num_days + 1
    /\ n = (if including_today then num_days - len (_series h) + 1
            else if len (_series h) =? num_days + 1 then 0
                 else num_days - len (_series h)).
Proof.
  intros H.
  destruct (elapsed_days now h) as [num_days|e] eqn:He.
  - exists num_days. split; [reflexivity|].
    destruct (Z.le_gt_cases (len (_series h)) (num_days + 1)) as [Hle|Hgt].
    + split; [exact Hle|].
      rewrite (get_num_missing_days_ok now h num_days He including_today Hle)
        in H.
      now injection H.
    + rewrite (get_num_missing_days_future now h num_days He including_today)
        in H by lia.
      discriminate.
  - exfalso. unfold get_num_missing_days, _get_num_missing_days in H.
    unfold elapsed_days in He.
    destruct (_str_to_date (_start_date_str h)); simpl in *; discriminate.
Qed.

(** X2. A count of missing days that is returned is never negative, for
    either flag and whatever the start date and the series are. *)
Theorem get_num_missing_days_nonneg :
  forall (now : datetime) (h : Habit.t) (including_today : bool) (n : Z),
    get_num_missing_days now h including_today = Return n -> 0 <= n.
Proof.
  intros now h b n H.
  apply get_num_missing_days_returns in H as (num_days & _ & Hle & ->).
  destruct b; [lia|].
  destruct (Z.eqb_spec (len (_series h)) (num_days + 1)); lia.
Qed.

Lemma get_num_missing_days_nonneg_witness :
  0 <= 0.
Proof.
  exact (get_num_missing_days_nonneg morning_2024_1_4
           (habit_since "2024-1-5" []) false 0 eq_refl).
Defined.

(** X3. Nothing is left to fill after a mutator has returned, whatever
    the state was: after [mark_today] both counts are 0 and
    [is_today_marked] is true; after [mark_missing_days] the count for the
    same flag is 0 and a further call with no results changes nothing. *)
Theorem nothing_missing_after_marking :
  forall (now : datetime) (h h' : Habit.t),
    (forall result,
       mark_today now h result = Return h' ->
       get_num_missing_days now h' true = Return 0
       /\ get_num_missing_days now h' false = Return 0
       /\ is_today_marked now h' = Return true)
    /\ (forall results including_today,
          mark_missing_days now h results including_today = Return h' ->
          get_num_missing_days now h' including_today = Return 0
          /\ mark_missing_days now h' [] including_today = Return h').
Proof.
  intros now h h'. split.
  - intros result Hmark. apply mark_today_inv in Hmark as [Hcount ->].
    apply get_num_missing_days_returns in Hcount as (n & He & Hle & Hn).
    set (h1 := with_series h (_series h ++ [result])).
    assert (elapsed_days now h1 = Return n) as He1 by exact He.
    assert (len (_series h1) = n + 1) as Hlen1.
    { unfold h1; simpl. rewrite len_app. change (len [result]) with 1. lia. }
    assert (get_num_missing_days now h1 true = Return 0) as Ht.
    { rewrite (get_num_missing_days_ok now h1 n He1 true) by lia.
      cbv iota. rewrite Hlen1. f_equal. lia. }
    split; [exact Ht|]. split.
    + rewrite (get_num_missing_days_ok now h1 n He1 false) by lia.
      cbv iota. now rewrite Hlen1, Z.eqb_refl.
    + unfold is_today_marked. now rewrite Ht.
  - intros results b Hmark. apply mark_missing_days_inv in Hmark as [Hcount ->].
    apply get_num_missing_days_returns in Hcount as (n & He & Hle & Hn).
    set (h1 := with_series h (_series h ++ results)).
    assert (elapsed_days now h1 = Return n) as He1 by exact He.
    assert (len (_series h1) = len (_series h) + len results) as Hlen1.
    { unfold h1; simpl. now rewrite len_app. }
    assert (get_num_missing_days now h1 b = Return 0) as Hz.
    { destruct b.
      - rewrite (get_num_missing_days_ok now h1 n He1 true) by lia.
        cbv iota. rewrite Hlen1. f_equal. lia.
      - destruct (Z.eqb_spec (len (_series h)) (n + 1)) as [E|E].
        + rewrite (get_num_missing_days_ok now h1 n He1 false) by lia.
          cbv iota. rewrite Hlen1, Hn, Z.add_0_r, E, Z.eqb_refl. reflexivity.
        + rewrite (get_num_missing_days_ok now h1 n He1 false) by lia.
          cbv iota. rewrite Hlen1.
          destruct (Z.eqb_spec (len (_series h) + len results) (n + 1));
            [reflexivity | f_equal; lia]. }
    split; [exact Hz|].
    unfold mark_missing_days. rewrite Hz. cbn [bind assert len List.length Z.of_nat Z.eqb].
    unfold with_series. simpl. now rewrite app_nil_r.
Qed.

(** X4. When today is not marked, filling the days before today and then
    marking today is the same as filling all the days at once, today
    included: both return the habit with the results and today's result
    appended. *)
Theorem backfill_then_mark_today :
  forall (now : datetime) (h : Habit.t) (missing : Z)
         (results : list Result.t) (result : Result.t),
    get_num_missing_days now h true = Return missing ->
    1 <= missing ->
    len results = missing - 1 ->
    (h' <- mark_missing_days now h results false ;; mark_today now h' result)
    = Return (with_series h (_series h ++ results ++ [result]))
    /\ mark_missing_days now h (results ++ [result]) true
       = Return (with_series h (_series h ++ results ++ [result])).
Proof.
  intros now h missing results result Hcount Hpos Hlen.
  apply get_num_missing_days_returns in Hcount as (n & He & Hle & Hn).
  assert (len (_series h) <> n + 1) as Hne by lia.
  split.
  - unfold mark_missing_days at 1.
    rewrite (get_num_missing_days_ok now h n He false Hle).
    rewrite (proj2 (Z.eqb_neq _ _) Hne). cbn [bind].
    replace (n - len (_series h) =? len results) with true
      by (symmetry; apply Z.eqb_eq; lia).
    cbn [assert bind].
    set (h1 := with_series h (_series h ++ results)).
    assert (elapsed_days now h1 = Return n) as He1 by exact He.
    assert (len (_series h1) = n) as Hlen1.
    { unfold h1; simpl. rewrite len_app. lia. }
    unfold mark_today.
    rewrite (get_num_missing_days_ok now h1 n He1 true) by lia.
    rewrite Hlen1. replace (n - n + 1) with 1 by lia. cbn [bind assert Z.ltb Z.eqb Z.compare Pos.compare Pos.eqb].
    unfold h1, with_series; simpl. now rewrite <- app_assoc.
  - unfold mark_missing_days.
    rewrite (get_num_missing_days_ok now h n He true Hle). cbn [bind].
    replace (n - len (_series h) + 1 =? len (results ++ [result])) with true.
    + reflexivity.
    + symmetry. apply Z.eqb_eq. rewrite len_app.
      change (len [result]) with 1. lia.
Qed.

Lemma backfill_then_mark_today_witness :
  mark_missing_days morning_2024_1_4 (habit_since "2024-1-1" [Result.BAD])
    ([Result.GOOD; Result.GOOD] ++ [Result.UNKNOWN]) true
  = Return (habit_since "2024-1-1"
              [Result.BAD; Result.GOOD; Result.GOOD; Result.UNKNOWN]).
Proof.
  refine (proj2 (backfill_then_mark_today morning_2024_1_4
            (habit_since "2024-1-1" [Result.BAD]) 3
            [Result.GOOD; Result.GOOD] Result.UNKNOWN eq_refl _ _)).
  - lia.
  - reflexivity.
Defined.

Lemma nothing_missing_after_marking_witness :
  get_num_missing_days morning_2024_1_4
    (habit_since "2024-1-1"
       [Result.GOOD; Result.GOOD; Result.BAD; Result.UNKNOWN]) true
  = Return 0
  /\ get_num_missing_days morning_2024_1_4
       (habit_since "2024-1-1"
          [Result.GOOD; Result.GOOD; Result.BAD; Result.UNKNOWN]) false
     = Return 0
  /\ is_today_marked morning_2024_1_4
       (habit_since "2024-1-1"
          [Result.GOOD; Result.GOOD; Result.BAD; Result.UNKNOWN])
     = Return true.
Proof.
  exact (proj1 (nothing_missing_after_marking morning_2024_1_4
                  (habit_since "2024-1-1" [Result.GOOD; Result.GOOD; Result.BAD])
                  (habit_since "2024-1-1"
                     [Result.GOOD; Result.GOOD; Result.BAD; Result.UNKNOWN]))
           Result.UNKNOWN eq_refl).
Defined.

(** ** Dates written and read *)

Lemma str_digits n : 0 <= n -> all_chars is_digit (str n) = true.
Proof.
  intros Hn. unfold str. destruct n as [|p|p]; [reflexivity| |lia].
  simpl. pose proof (DecimalPos.Unsigned.to_uint_nonnil p) as Hp.
  assert (NilZero.string_of_uint (Pos.to_uint p)
          = NilEmpty.string_of_uint (Pos.to_uint p)) as ->.
  { destruct (Pos.to_uint p); [contradiction | reflexivity ..]. }
  apply digits_of_uint.
Qed.

Lemma digits_no_minus s :
  all_chars is_digit s = true ->
  all_chars (fun c => negb (Ascii.eqb c "-")) s = true.
Proof.
  apply all_chars_impl. intros c Hc.
  now rewrite (proj1 (digit_not_sign c Hc)).
Qed.

Lemma split_whole sep s :
  all_chars (fun c => negb (Ascii.eqb c sep)) s = true -> split sep s = [s].
Proof.
  induction s as [|c r IH]; simpl; [reflexivity|].
  intros H. apply andb_prop in H as [Hc Hr]. apply negb_true_iff in Hc.
  now rewrite Hc, (IH Hr).
Qed.

Lemma split_first sep s rest :
  all_chars (fun c => negb (Ascii.eqb c sep)) s = true ->
  split sep (s ++ String sep rest) = s :: split sep rest.
Proof.
  induction s as [|c r IH]; simpl; intros H.
  - now rewrite Ascii.eqb_refl.
  - apply andb_prop in H as [Hc Hr]. apply negb_true_iff in Hc.
    now rewrite Hc, (IH Hr).
Qed.

Lemma check_fields_returns y m d h mi s us dt :
  check_fields y m d h mi s us = Return dt ->
  dt = Datetime y m d h mi s us
  /\ 1 <= y /\ 1 <= m /\ 1 <= d
  /\ check_fields y m d 0 0 0 0 = Return (Datetime y m d 0 0 0 0).
Proof.
  unfold check_fields.
  destruct (in_range 1 y 9999 && in_range 1 m 12
            && in_range 1 d (_days_in_month y m)) eqn:E;
    cbn [andb]; [|discriminate].
  destruct (in_range 0 h 23 && in_range 0 mi 59 && in_range 0 s 59
            && in_range 0 us 999999); [|discriminate].
  intros [= <-]. split; [reflexivity|].
  apply andb_prop in E as [E Hd]. apply andb_prop in E as [Hy Hm].
  unfold in_range in Hy, Hm, Hd.
  apply andb_prop in Hy as [Hy _]. apply andb_prop in Hm as [Hm _].
  apply andb_prop in Hd as [Hd _].
  apply Z.leb_le in Hy, Hm, Hd. repeat split; try assumption.
Qed.

Lemma str_to_date_to_str y m d :
  1 <= y -> 1 <= m -> 1 <= d ->
  _str_to_date (_date_to_str (Datetime y m d 0 0 0 0))
  = check_fields y m d 0 0 0 0.
Proof.
  intros Hy Hm Hd. unfold _str_to_date, _date_to_str. cbn [year month day].
  assert (forall n, 1 <= n ->
            all_chars (fun c => negb (Ascii.eqb c "-")) (str n) = true) as Hno.
  { intros n Hn. apply digits_no_minus, str_digits. lia. }
  change (str y ++ "-" ++ str m ++ "-" ++ str d)
    with (str y ++ String "-" (str m ++ String "-" (str d))).
  rewrite (split_first _ _ _ (Hno y Hy)), (split_first _ _ _ (Hno m Hm)),
    (split_whole _ _ (Hno d Hd)).
  cbn [mapM]. rewrite !int_str. reflexivity.
Qed.

Lemma str_to_date_today now :
  valid now -> _str_to_date (_get_today_str now) = Return (_get_today now).
Proof.
  unfold valid. intros H.
  destruct (check_fields_returns _ _ _ _ _ _ _ _ H) as (_ & Hy & Hm & Hd & Hc).
  unfold _get_today_str, _get_today. now rewrite str_to_date_to_str.
Qed.

(** X5. The text of a date reads back as that date: for every year,
    month and day the constructor accepts,
    [_str_to_date(_date_to_str(date))] is [date]; and for every clock
    [_str_to_date(_get_today_str())] is [_get_today()]. *)
Theorem str_to_date_date_to_str :
  forall (y m d : Z) (date now : datetime),
    (datetime_new [y; m; d] = Return date ->
     _str_to_date (_date_to_str date) = Return date)
    /\ (valid now ->
        _str_to_date (_get_today_str now) = Return (_get_today now)).
Proof.
  intros y m d date now. split.
  - cbn [datetime_new]. intros H.
    destruct (check_fields_returns _ _ _ _ _ _ _ _ H) as (-> & Hy & Hm & Hd & Hc).
    now rewrite str_to_date_to_str.
  - apply str_to_date_today.
Qed.

Lemma str_to_date_date_to_str_witness :
  _str_to_date (_date_to_str (Datetime 2024 2 29 0 0 0 0))
  = Return (Datetime 2024 2 29 0 0 0 0).
Proof.
  exact (proj1 (str_to_date_date_to_str 2024 2 29 (Datetime 2024 2 29 0 0 0 0)
                  morning_2024_1_4) eq_refl).
Defined.

Lemma create_returns now fs title description start_date_str series fs' h :
  create now fs title description start_date_str series = Return (fs', h) ->
  fs' = Some (ensure_habits fs)
  /\ Habit.title h = title /\ Habit.description h = description
  /\ _start_date_str h = match start_date_str with
                         | None => _get_today_str now
                         | Some s => s
                         end
  /\ _series h = match series with
                 | None => []
                 | Some l => l
                 end.
Proof.
  unfold create.
  destruct (_find_latest_habit_id (Some (ensure_habits fs))) as [latest|e];
    cbn [bind]; [|discriminate].
  destruct (int latest) as [n|e]; cbn [bind]; [|discriminate].
  intros [= <- <-]. repeat split; reflexivity.
Qed.

Lemma days_between_same d : days_between d d = 0.
Proof. unfold days_between. now rewrite Z.sub_diag. Qed.

(** X6. A habit created without start date and series has exactly today
    missing: the count is 1 including today and 0 without, today is not
    marked, and [mark_today] returns the habit with the one result. *)
Theorem created_habit_awaits_today :
  forall (now : datetime) (fs fs' : filesystem) (title description : string)
         (h : Habit.t) (result : Result.t),
    valid now ->
    create now fs title description None None = Return (fs', h) ->
    get_num_missing_days now h true = Return 1
    /\ get_num_missing_days now h false = Return 0
    /\ is_today_marked now h = Return false
    /\ mark_today now h result = Return (with_series h [result]).
Proof.
  intros now fs fs' title description h result Hnow Hcreate.
  apply create_returns in Hcreate as (_ & _ & _ & Hstart & Hseries).
  assert (elapsed_days now h = Return 0) as He.
  { unfold elapsed_days. rewrite Hstart.
    rewrite (str_to_date_today now Hnow).
    cbn [bind]. now rewrite days_between_same. }
  assert (len (_series h) = 0) as Hlen by now rewrite Hseries.
  assert (get_num_missing_days now h true = Return 1) as Ht.
  { rewrite (get_num_missing_days_ok now h 0 He true) by lia.
    cbv iota. now rewrite Hlen. }
  split; [exact Ht|]. split; [|split].
  - rewrite (get_num_missing_days_ok now h 0 He false) by lia.
    cbv iota. now rewrite Hlen.
  - unfold is_today_marked. now rewrite Ht.
  - unfold mark_today. rewrite Ht. cbn [bind assert Z.ltb Z.eqb Z.compare Pos.eqb].
    now rewrite Hseries.
Qed.

Lemma created_habit_awaits_today_witness :
  mark_today morning_2024_1_4 (Make "0" "Read" "Ten pages" "2024-1-4" [])
    Result.GOOD
  = Return (Make "0" "Read" "Ten pages" "2024-1-4" [Result.GOOD]).
Proof.
  exact (proj2 (proj2 (proj2 (created_habit_awaits_today morning_2024_1_4
           None (Some []) "Read" "Ten pages"
           (Make "0" "Read" "Ten pages" "2024-1-4" []) Result.GOOD
           eq_refl eq_refl)))).
Defined.

(** X7. The count follows the calendar and not the time of day: [k]
    days later the count including today is [k] larger, for any clocks
    whose dates are [k] days apart. *)
Theorem missing_days_grow_with_the_days :
  forall (now later : datetime) (h : Habit.t) (k n : Z),
    0 <= k ->
    toordinal (_get_today later) = toordinal (_get_today now) + k ->
    get_num_missing_days now h true = Return n ->
    get_num_missing_days later h true = Return (n + k).
Proof.
  intros now later h k n Hk Hord Hcount.
  apply get_num_missing_days_returns in Hcount as (num_days & He & Hle & ->).
  assert (elapsed_days later h = Return (num_days + k)) as He'.
  { unfold elapsed_days in *.
    destruct (_str_to_date (_start_date_str h)) as [start|e]; [|discriminate].
    cbn [bind] in *. injection He as <-. f_equal.
    unfold days_between, microseconds. rewrite Hord.
    cbn [_get_today hour minute second microsecond].
    rewrite <- Z.div_add by lia. f_equal. lia. }
  rewrite (get_num_missing_days_ok later h (num_days + k) He' true) by lia.
  f_equal. lia.
Qed.

Lemma missing_days_grow_with_the_days_witness :
  get_num_missing_days (Datetime 2024 3 1 23 59 0 0)
    (habit_since "2024-1-1" [Result.GOOD]) true
  = Return (3 + 57).
Proof.
  apply (missing_days_grow_with_the_days morning_2024_1_4
           (Datetime 2024 3 1 23 59 0 0)
           (habit_since "2024-1-1" [Result.GOOD]) 57 3).
  - lia.
  - reflexivity.
  - reflexivity.
Defined.

(** ** Saving and removing *)

Lemma store_store name c1 c2 d :
  store name c2 (store name c1 d) = store name c2 d.
Proof.
  induction d as [|[n c] r IH]; simpl.
  - now rewrite String.eqb_refl.
  - destruct (String.eqb n name) eqn:E; simpl; rewrite E; [reflexivity|].
    now rewrite IH.
Qed.


Lemma lookup_none name d : lookup name d = None <-> ~ In name (map fst d).
Proof.
  induction d as [|[n c] r IH]; simpl; [tauto|].
  destruct (String.eqb_spec n name) as [->|Hn].
  - split; [discriminate|]. intros H. exfalso. apply H. now left.
  - rewrite IH. tauto.
Qed.

Lemma store_names name content d :
  map fst (store name content d)
  = match lookup name d with
    | Some _ => map fst d
    | None => (map fst d ++ [name])%list
    end.
Proof.
  induction d as [|[n c] r IH]; simpl; [reflexivity|].
  destruct (String.eqb n name) eqn:E; simpl; [reflexivity|].
  rewrite IH. now destruct (lookup name r).
Qed.

Lemma unlink_store name content d :
  lookup name d = None -> unlink name (store name content d) = d.
Proof.
  induction d as [|[n c] r IH]; simpl.
  - now rewrite String.eqb_refl.
  - destruct (String.eqb n name) eqn:E; [discriminate|].
    intros H. simpl. rewrite E. now rewrite (IH H).
Qed.

Lemma lookup_unlink name d :
  NoDup (map fst d) -> lookup name (unlink name d) = None.
Proof.
  induction d as [|[n c] r IH]; simpl; [reflexivity|].
  intros Hnd. inversion Hnd as [|? ? Hn Hnd']; subst.
  destruct (String.eqb_spec n name) as [->|Hne].
  - now apply lookup_none.
  - simpl. rewrite (proj2 (String.eqb_neq n name) Hne). now apply IH.
Qed.

Lemma lookup_unlink_other name other d :
  other <> name -> lookup other (unlink name d) = lookup other d.
Proof.
  intros Hne. induction d as [|[n c] r IH]; simpl; [reflexivity|].
  destruct (String.eqb_spec n name) as [->|Hn]; simpl.
  - now rewrite (proj2 (String.eqb_neq name other)) by congruence.
  - destruct (String.eqb n other); [reflexivity | exact IH].
Qed.

(** X8. The last [save] under an id wins: saving a habit over another of
    the same id leaves the directory as if only the second had been
    saved, and saving the same habit twice is the same as saving it
    once. *)
Theorem save_overwrites :
  forall (fs : filesystem) (h1 h2 : Habit.t),
    (get_habit_id h1 = get_habit_id h2 -> save (save fs h1) h2 = save fs h2)
    /\ save (save fs h1) h1 = save fs h1.
Proof.
  intros fs h1 h2.
  assert (forall a b, get_habit_id a = get_habit_id b ->
                      save (save fs a) b = save fs b) as H.
  { intros a b E. unfold get_habit_id in E.
    unfold save, _write_habit. cbn [ensure_habits]. rewrite E.
    now rewrite store_store. }
  split; [apply H | now apply H].
Qed.

Lemma save_overwrites_witness :
  save (save None (Make "0" "Read" "Ten pages" "2024-1-1" []))
       (Make "0" "Run" "" "2024-1-2" [Result.GOOD])
  = save None (Make "0" "Run" "" "2024-1-2" [Result.GOOD]).
Proof.
  exact (proj1 (save_overwrites None
                  (Make "0" "Read" "Ten pages" "2024-1-1" [])
                  (Make "0" "Run" "" "2024-1-2" [Result.GOOD])) eq_refl).
Defined.



Lemma lower_is_y s : lower s = "y" <-> s = "y" \/ s = "Y".
Proof.
  split.
  - destruct s as [|c [|c' r]]; simpl; try discriminate.
    intros [= H].
    destruct c as [[] [] [] [] [] [] [] []]; vm_compute in H;
      try discriminate; auto.
  - intros [->| ->]; reflexivity.
Qed.

(** X10. With the prompt, [remove] deletes on the answers "y" and "Y"
    exactly as it does without prompt, and on every other answer it
    deletes nothing and exits with status 1. *)
Theorem remove_asks_first :
  forall (fs : filesystem) (h : Habit.t) (answer : string),
    remove fs h true answer
    = if String.eqb answer "y" || String.eqb answer "Y"
      then remove fs h false answer
      else Raise (SystemExit 1).
Proof.
  intros fs h answer. unfold remove.
  destruct (String.eqb_spec answer "y") as [->|Hy]; [reflexivity|].
  destruct (String.eqb_spec answer "Y") as [->|HY]; [reflexivity|].
  cbn [orb].
  destruct (String.eqb_spec (lower answer) "y") as [E|_]; [|reflexivity].
  apply lower_is_y in E as [E|E]; contradiction.
Qed.

(** X11. [remove] deletes the record of the habit and no other: after
    it, [find] by that id raises on the missing file, a second [remove]
    raises [FileNotFoundError], and every other record reads as before;
    and a habit that has no file cannot be removed. *)
Theorem remove_deletes_the_record :
  forall (d : directory) (h : Habit.t) (answer : string),
    NoDup (map fst d) ->
    (exists_file (Some d) (get_habit_id h) = false ->
     remove (Some d) h false answer = Raise FileNotFoundError)
    /\ (exists_file (Some d) (get_habit_id h) = true ->
        exists d',
          remove (Some d) h false answer = Return (Some d')
          /\ find (Some d') (Some (get_habit_id h)) None
             = Raise (AssertionError Habit_file_exists)
          /\ remove (Some d') h false answer = Raise FileNotFoundError
          /\ forall name, name <> get_habit_id h ->
                          _read_habit (Some d') name = _read_habit (Some d) name).
Proof.
  intros d h answer Hnd. unfold get_habit_id, remove, os_remove, exists_file.
  split.
  - destruct (lookup (_habit_id h) d); [discriminate | reflexivity].
  - destruct (lookup (_habit_id h) d) as [c|] eqn:E; [|discriminate].
    intros _. exists (unlink (_habit_id h) d).
    pose proof (lookup_unlink (_habit_id h) d Hnd) as Hgone.
    split; [reflexivity|]. split; [|split].
    + unfold find, _read_habit, exists_file. cbn [bind exists_habits assert].
      now rewrite Hgone.
    + now rewrite Hgone.
    + intros name Hne. unfold _read_habit, exists_file, read_text.
      now rewrite (lookup_unlink_other _ _ d Hne).
Qed.

Lemma remove_deletes_the_record_witness :
  remove (Some [("0", ""); ("1", "")]) (habit_since "2024-1-1" []) false ""
  = Return (Some [("1", "")]) 
  /\ remove (Some [("1", "")]) (habit_since "2024-1-1" []) false ""
     = Raise FileNotFoundError.
Proof.
  destruct (proj2 (remove_deletes_the_record [("0", ""); ("1", "")]
                     (habit_since "2024-1-1" []) ""
                     ltac:(repeat constructor; simpl; intuition discriminate))
              eq_refl) as (d' & Hrm & _ & Hagain & _).
  injection Hrm as <-. split; [reflexivity | exact Hagain].
Defined.

(** X12. Removing a habit just saved under a new id gives the directory
    back as it was. *)
Theorem save_then_remove :
  forall (d : directory) (h : Habit.t) (answer : string),
    exists_file (Some d) (get_habit_id h) = false ->
    remove (save (Some d) h) h false answer = Return (Some d).
Proof.
  intros d h answer. unfold get_habit_id, exists_file, remove, os_remove, save,
    _write_habit. cbn [ensure_habits].
  destruct (lookup (_habit_id h) d) eqn:E; [discriminate|]. intros _.
  rewrite lookup_store. now rewrite (unlink_store _ _ d E).
Qed.

Lemma save_then_remove_witness :
  remove (save (Some [("1", "")]) (habit_since "2024-1-1" []))
    (habit_since "2024-1-1" []) false ""
  = Return (Some [("1", "")]).
Proof.
  exact (save_then_remove [("1", "")] (habit_since "2024-1-1" []) "" eq_refl).
Defined.

(** ** Creating *)

Lemma next_id_snoc ids : next_id (ids ++ [next_id ids]) = next_id ids + 1.
Proof.
  destruct ids as [|x r]; [reflexivity|].
  cbn [List.app next_id]. rewrite fold_left_app. cbn [fold_left].
  destruct (fold_max_spec r x) as (_ & _ & _). lia.
Qed.

(** X13. [create] gives no id away: until the new habit is saved a
    further [create] returns the same id, and once it is saved the next
    [create] returns the id after it. *)
Theorem create_then_create :
  forall (now : datetime) (fs fs1 : filesystem) (ids : list Z) (h1 : Habit.t)
         (title description title' description' : string),
    map fst (ensure_habits fs) = map str ids ->
    create now fs title description None None = Return (fs1, h1) ->
    (exists h2,
       create now fs1 title' description' None None = Return (fs1, h2)
       /\ get_habit_id h2 = get_habit_id h1)
    /\ (exists h2,
          create now (save fs1 h1) title' description' None None
          = Return (save fs1 h1, h2)
          /\ int (get_habit_id h1) = Return (next_id ids)
          /\ int (get_habit_id h2) = Return (next_id ids + 1)).
Proof.
  intros now fs fs1 ids h1 title description title' description' Hnames Hcreate.
  rewrite (create_next_id now fs ids _ _ _ _ Hnames) in Hcreate.
  injection Hcreate as <- <-. split.
  - eexists. split.
    + now rewrite (create_next_id now (Some (ensure_habits fs)) ids).
    + reflexivity.
  - set (h1 := Make (str (next_id ids)) title description (_get_today_str now) []).
    assert (map fst (ensure_habits (save (Some (ensure_habits fs)) h1))
            = map str (ids ++ [next_id ids])) as Hnames'.
    { unfold save, _write_habit. cbn [ensure_habits].
      rewrite store_names.
      destruct (lookup (_habit_id h1) (ensure_habits fs)) eqn:E.
      - exfalso. assert (In (_habit_id h1) (map fst (ensure_habits fs))) as Hin.
        { destruct (in_dec string_dec (_habit_id h1)
                      (map fst (ensure_habits fs))) as [|n]; [assumption|].
          apply lookup_none in n. congruence. }
        rewrite Hnames in Hin. apply in_map_iff in Hin as (n & Hn & Hin).
        apply str_inj in Hn. subst n.
        pose proof (proj2 (proj2 (next_id_spec ids)) _ Hin). lia.
      - now rewrite Hnames, map_app. }
    eexists. split; [|split].
    + rewrite (create_next_id now _ _ _ _ _ _ Hnames'). reflexivity.
    + apply int_str.
    + cbn [get_habit_id _habit_id]. rewrite next_id_snoc. apply int_str.
Qed.

Lemma create_then_create_witness :
  exists h2,
    create morning_2024_1_4 (Some []) "Run" "" None None = Return (Some [], h2)
    /\ get_habit_id h2 = "0".
Proof.
  exact (proj1 (create_then_create morning_2024_1_4 None (Some []) []
                  (Make "0" "Read" "" "2024-1-4" []) "Read" "" "Run" ""
                  eq_refl eq_refl)).
Defined.





(** ** Finding *)



Lemma find_habit_id_loop_lower fs title title' habit_ids desired :
  lower title = lower title' ->
  _find_habit_id_loop fs title habit_ids desired
  = _find_habit_id_loop fs title' habit_ids desired.
Proof.
  intros E. revert desired.
  induction habit_ids as [|habit_id rest IH]; intros desired; [reflexivity|].
  cbn [_find_habit_id_loop]. rewrite E.
  destruct (_read_habit fs habit_id) as [[[[t dsc] s] sr]|e]; [|reflexivity].
  cbn [bind]. destruct (String.eqb (lower t) (lower title')).
  - destruct desired; cbn [assert bind]; [reflexivity | apply IH].
  - apply IH.
Qed.

(** X16. The lookup by title sees the query through [lower] only: two
    queries that differ by letter case give the same outcome in every
    directory, the same habit or the same exception. *)
Theorem find_by_title_any_case :
  forall (fs : filesystem) (title title' : string),
    lower title = lower title' ->
    find fs None (Some title) = find fs None (Some title').
Proof.
  intros fs title title' E. unfold find, _find_habit_id.
  destruct (exists_habits fs); cbn [assert bind]; [|reflexivity].
  destruct (listdir fs) as [habit_ids|e]; cbn [bind]; [|reflexivity].
  now rewrite (find_habit_id_loop_lower fs title title' habit_ids None E).
Qed.

Lemma find_by_title_any_case_witness :
  find (save None (Make "0" "Read" "Ten pages" "2024-1-1" []))
    None (Some "READ")
  = find (save None (Make "0" "Read" "Ten pages" "2024-1-1" []))
      None (Some "read").
Proof.
  exact (find_by_title_any_case
           (save None (Make "0" "Read" "Ten pages" "2024-1-1" []))
           "READ" "read" eq_refl).
Defined.

(** X17. A habit saved into an empty or missing directory is found by
    its title in any letter case, as it was saved, and no other title
    finds anything; this for a title and a start date of one line, the
    start date not the separator, and a description broken at LF only. *)
Theorem find_saved_by_title :
  forall (fs : filesystem) (h : Habit.t) (query : string),
    ensure_habits fs = [] ->
    single_line (Habit.title h) = true ->
    breaks_at_LF_only (Habit.description h) = true ->
    single_line (_start_date_str h) = true ->
    _start_date_str h <> _SEP ->
    find (save fs h) None (Some query)
    = if String.eqb (lower (Habit.title h)) (lower query) then Return h
      else Raise (AssertionError Title_is_found).
Proof.
  intros fs h query Hempty Ht Hd Hs Hne.
  pose proof (read_habit_written fs (_habit_id h) _ _ _ (_series h) Ht Hd Hs Hne)
    as Hread.
  fold (save fs h) in Hread.
  unfold find, _find_habit_id.
  assert (exists c, save fs h = Some [(_habit_id h, c)]) as [c Hfs].
  { unfold save, _write_habit. rewrite Hempty. eexists. reflexivity. }
  rewrite Hfs in *. cbn [exists_habits assert bind listdir map fst].
  cbn [_find_habit_id_loop]. rewrite Hread. cbn [bind].
  destruct (String.eqb (lower (Habit.title h)) (lower query));
    cbn [assert bind _find_habit_id_loop]; [|reflexivity].
  rewrite Hread. cbn [bind]. now destruct h.
Qed.

Lemma find_saved_by_title_witness :
  find (save None (Make "0" "Read" "Ten pages" "2024-1-1" [Result.GOOD]))
    None (Some "rEAD")
  = Return (Make "0" "Read" "Ten pages" "2024-1-1" [Result.GOOD]).
Proof.
  exact (find_saved_by_title None
           (Make "0" "Read" "Ten pages" "2024-1-1" [Result.GOOD]) "rEAD"
           eq_refl eq_refl eq_refl eq_refl
           ltac:(discriminate)).
Defined.

(** X18. The separator may stand in the description, and the title may
    be empty: reading looks for the last separator, so a habit is read
    back as saved as soon as its title and start date are one line each,
    the start date is not the separator and the description is broken at
    LF only. *)
Theorem separator_in_description_read_back :
  forall (fs : filesystem) (h : Habit.t),
    single_line (Habit.title h) = true ->
    breaks_at_LF_only (Habit.description h) = true ->
    single_line (_start_date_str h) = true ->
    _start_date_str h <> _SEP ->
    find (save fs h) (Some (get_habit_id h)) None = Return h.
Proof.
  intros fs h Ht Hd Hs Hne.
  pose proof (read_habit_written fs (_habit_id h) _ _ _ (_series h) Ht Hd Hs Hne)
    as Hread.
  fold (save fs h) in Hread.
  unfold find, get_habit_id. cbn [bind]. rewrite Hread. cbn [bind].
  now destruct h.
Qed.

Lemma separator_in_description_read_back_witness :
  find (save None
          (Make "3" "" (_SEP ++ String LF _SEP) "2024-1-4" [Result.BAD]))
    (Some "3") None
  = Return (Make "3" "" (_SEP ++ String LF _SEP) "2024-1-4" [Result.BAD]).
Proof.
  exact (separator_in_description_read_back None
           (Make "3" "" (_SEP ++ String LF _SEP) "2024-1-4" [Result.BAD])
           eq_refl eq_refl eq_refl ltac:(discriminate)).
Defined.

Lemma mapM_length {A B : Type} (f : A -> outcome B) l l' :
  mapM f l = Return l' -> List.length l' = List.length l.
Proof.
  revert l'. induction l as [|a r IH]; intros l'; cbn [mapM].
  - now intros [= <-].
  - destruct (f a) as [b|e]; cbn [bind]; [|discriminate].
    destruct (mapM f r) as [bs|e]; cbn [bind]; [|discriminate].
    intros [= <-]. cbn [List.length]. now rewrite (IH bs eq_refl).
Qed.

Lemma check_fields_valid y m d h mi s us date :
  check_fields y m d h mi s us = Return date -> valid date.
Proof.
  intros H. pose proof (check_fields_returns _ _ _ _ _ _ _ _ H) as (-> & _).
  exact H.
Qed.

(** X19. [_str_to_date] returns real dates only: what it returns passes
    the checks of the constructor (year 1 to 9999, month 1 to 12, a day of
    that month), and the text had three to seven fields between its "-";
    with fewer or more fields it raises. *)
Theorem str_to_date_returns_dates :
  forall (date_str : string) (date : datetime),
    _str_to_date date_str = Return date ->
    valid date
    /\ (3 <= List.length (split "-" date_str) <= 7)%nat.
Proof.
  intros date_str date. unfold _str_to_date.
  destruct (mapM int (split "-" date_str)) as [args|e] eqn:E;
    cbn [bind]; [|discriminate].
  apply mapM_length in E. rewrite <- E. clear E.
  destruct args as [|y [|m [|d [|h [|mi [|s [|us [|tz [|x rest]]]]]]]]];
    cbn [datetime_new List.length]; try discriminate;
    try (intros H; split; [exact (check_fields_valid _ _ _ _ _ _ _ _ H) | lia]).
  destruct (check_fields y m d h mi s us); discriminate.
Qed.

Lemma str_to_date_returns_dates_witness :
  valid (Datetime 2024 1 4 10 0 0 0)
  /\ (3 <= List.length (split "-" "2024-1-4-10") <= 7)%nat.
Proof.
  exact (str_to_date_returns_dates "2024-1-4-10" (Datetime 2024 1 4 10 0 0 0)
           eq_refl).
Defined.
